(** * React compatibility scripts: a shallow embedding

    Two Node.js command-line scripts are modelled here:

    - [scripts/validate-react-versions.js] ([Module Validate]): reads the
      declared [react] / [react-dom] versions of [package.json], parses
      them with the regular expression [/(\d+)\.(\d+)\.(\d+)/] and applies
      the 19/17 rule, then looks at the versions installed in
      [node_modules];
    - the runtime smoke test ([Module Runtime]): spawns [npx serve], waits,
      fetches [http://localhost:3001] and greps the body.

    JavaScript strings are modelled as byte strings (the UTF-8 encoding of
    the text).  Every needle the scripts search for is ASCII, and a byte of
    a multi-byte UTF-8 sequence is never an ASCII digit, dot or letter, so
    [includes], [startsWith] and the regular expression behave on the
    bytes as they do on the UTF-16 code units. *)

From Stdlib Require Import String Ascii List Bool NArith ZArith Lia.
Import ListNotations.
Open Scope string_scope.

(** ** String primitives *)

Module Str.

(** [String.prototype.startsWith(p)] at position 0. *)
Fixpoint startsWith (s p : string) {struct p} : bool :=
  match p with
  | EmptyString => true
  | String c p' =>
      match s with
      | EmptyString => false
      | String d s' => Ascii.eqb d c && startsWith s' p'
      end
  end.

(** [String.prototype.includes(p)]: [p] occurs at some position of [s]. *)
Fixpoint includes (s p : string) : bool :=
  startsWith s p ||
  match s with
  | EmptyString => false
  | String _ s' => includes s' p
  end.

(** The character class [\d] of a regular expression without the unicode
    flag: the ten ASCII digits. *)
Definition is_digit (c : ascii) : bool :=
  let n := N_of_ascii c in (48 <=? n)%N && (n <=? 57)%N.
Arguments is_digit : simpl never.

Fixpoint all_digits (s : string) : bool :=
  match s with
  | EmptyString => true
  | String c s' => is_digit c && all_digits s'
  end.

Definition is_empty (s : string) : bool :=
  match s with EmptyString => true | String _ _ => false end.

(** The longest run of digits at the head of [s], and what follows it:
    what a greedy [\d*] consumes. *)
Fixpoint span_digits (s : string) : string * string :=
  match s with
  | EmptyString => (EmptyString, EmptyString)
  | String c s' =>
      if is_digit c
      then let (d, r) := span_digits s' in (String c d, r)
      else (EmptyString, s)
  end.

(** No character of [s] is a digit. *)
Fixpoint no_digit (s : string) : bool :=
  match s with
  | EmptyString => true
  | String c s' => negb (is_digit c) && no_digit s'
  end.

End Str.

(** ** Numbers

    A JavaScript Number is an IEEE-754 binary64.  [parseInt] applied to a
    non-empty string of decimal digits yields the double nearest to the
    integer the digits denote (ties to even), and [Infinity] once that
    integer reaches [2^1024 - 2^970].  No other Number arises in the
    scripts, so a Number is modelled by the integer it holds. *)

Module Num.

Inductive number : Type :=
| Finite (n : N)
| Infinity.

Definition eqb (a b : number) : bool :=
  match a, b with
  | Finite x, Finite y => (x =? y)%N
  | Infinity, Infinity => true
  | _, _ => false
  end.

Definition digit_value (c : ascii) : N := (N_of_ascii c - 48)%N.

(** The mathematical integer denoted by a string of decimal digits. *)
Fixpoint decimal_value_from (acc : N) (s : string) : N :=
  match s with
  | EmptyString => acc
  | String c s' => decimal_value_from (10 * acc + digit_value c)%N s'
  end.

Definition decimal_value (s : string) : N := decimal_value_from 0%N s.

(** Rounding of a natural number to binary64, ties to even. *)
Definition to_number (n : N) : number :=
  if (n <? 2 ^ 53)%N then Finite n
  else
    let e := (N.log2 n - 52)%N in
    let q := N.shiftr n e in
    let r := N.land n (N.ones e) in
    let half := (2 ^ (e - 1))%N in
    let q' := if (half <? r)%N || ((r =? half)%N && N.odd q)
              then (q + 1)%N else q in
    let v := N.shiftl q' e in
    if (v <? 2 ^ 1024)%N then Finite v else Infinity.

(** [parseInt(s)] for [s] a non-empty string of ASCII digits (radix 10:
    such a string has no [0x] prefix). *)
Definition parseInt (s : string) : number := to_number (decimal_value s).

End Num.

(** ** The regular expression [/(\d+)\.(\d+)\.(\d+)/] *)

Module Regex.
Import Str.

(** The three capture groups of a match. *)
Record groups : Type := mkGroups { g1 : string; g2 : string; g3 : string }.

(** An attempt at one start position.  Each [\d+] is greedy, and giving a
    digit back never helps: the next pattern character is a dot (or the
    end of the pattern), which a digit does not match.  So the attempt
    succeeds exactly when the longest digit runs are separated by dots. *)
Definition match_here (s : string) : option groups :=
  let (d1, r1) := span_digits s in
  if is_empty d1 then None else
  match r1 with
  | String "." r1' =>
      let (d2, r2) := span_digits r1' in
      if is_empty d2 then None else
      match r2 with
      | String "." r2' =>
          let (d3, _) := span_digits r2' in
          if is_empty d3 then None else Some (mkGroups d1 d2 d3)
      | _ => None
      end
  | _ => None
  end.

Arguments match_here : simpl never.

(** [String.prototype.match] without the global flag: the leftmost start
    position at which the pattern matches. *)
Fixpoint regex_match (s : string) : option groups :=
  match match_here s with
  | Some g => Some g
  | None =>
      match s with
      | EmptyString => None
      | String _ s' => regex_match s'
      end
  end.

(** The declarative reading of the pattern: [s] has a substring made of
    three non-empty digit groups separated by dots. *)
Definition digit_group (d : string) : Prop :=
  is_empty d = false /\ all_digits d = true.

Definition has_triple (s : string) : Prop :=
  exists pre d1 d2 d3 post,
    s = pre ++ d1 ++ "." ++ d2 ++ "." ++ d3 ++ post /\
    digit_group d1 /\ digit_group d2 /\ digit_group d3.

End Regex.

(** ** Effects

    A run of a script is its completion together with the trace of the
    observable actions it performed, in order.  A completion is a normal
    return, a thrown [Error] (carrying its [message]), or a call of
    [process.exit(code)].

    [process.exit] ends the Node.js process synchronously: control never
    comes back to the caller, so no enclosing [catch] or [finally] block
    runs after it.  [Exited] therefore passes through [try_catch] and
    [try_finally] untouched, whereas [Thrown] is intercepted by both. *)

Module Eff.

Inductive level : Type := Log | Warn | Error.

(** A printed line: literal text, with the Numbers a template literal
    interpolates kept as values. *)
Inductive piece : Type :=
| Text (s : string)
| Value (n : Num.number).

Definition message : Type := list piece.

Inductive event : Type :=
| Console (l : level) (m : message)
| Spawn (command : string) (args : list string)
| Sleep (ms : N)
| HttpGet (url : string)
| Kill.

Inductive completion (A : Type) : Type :=
| Returned (a : A)
| Thrown (msg : string)
| Exited (code : Z).
Arguments Returned {A} a.
Arguments Thrown {A} msg.
Arguments Exited {A} code.

Definition M (A : Type) : Type := (completion A * list event)%type.

Definition ret {A} (a : A) : M A := (Returned a, []).

Definition bind {A B} (m : M A) (k : A -> M B) : M B :=
  match m with
  | (Returned a, t) => let (r, t') := k a in (r, (t ++ t')%list)
  | (Thrown e, t) => (Thrown e, t)
  | (Exited c, t) => (Exited c, t)
  end.

Definition emit (e : event) : M unit := (Returned tt, [e]).
Definition throw {A} (msg : string) : M A := (Thrown msg, []).
Definition exit {A} (code : Z) : M A := (Exited code, []).

(** [try { m } catch (error) { h error }] *)
Definition try_catch {A} (m : M A) (h : string -> M A) : M A :=
  match m with
  | (Thrown e, t) => let (r, t') := h e in (r, (t ++ t')%list)
  | other => other
  end.

(** [try { m } finally { f }]: [f] runs after a return or a throw of [m],
    whose completion stands unless [f] itself throws or exits. *)
Definition try_finally {A} (m : M A) (f : M unit) : M A :=
  match m with
  | (Exited c, t) => (Exited c, t)
  | (r, t) =>
      match f with
      | (Returned _, t') => (r, (t ++ t')%list)
      | (Thrown e, t') => (Thrown e, (t ++ t')%list)
      | (Exited c, t') => (Exited c, (t ++ t')%list)
      end
  end.

Definition console_log (s : string) : M unit := emit (Console Log [Text s]).
Definition console_warn (m : message) : M unit := emit (Console Warn m).
Definition console_error (s : string) : M unit := emit (Console Error [Text s]).

(** The exit status of the process once the script has run to its end:
    0 after a normal return, 1 after an uncaught exception. *)
Definition exit_code {A} (m : M A) : Z :=
  match fst m with
  | Returned _ => 0
  | Thrown _ => 1
  | Exited c => c
  end.

Definition trace {A} (m : M A) : list event := snd m.

Definition is_warn (e : event) : bool :=
  match e with Console Warn _ => true | _ => false end.

Definition is_spawn (e : event) : bool :=
  match e with Spawn _ _ => true | _ => false end.

Definition is_kill (e : event) : bool :=
  match e with Kill => true | _ => false end.

Definition is_request (e : event) : bool :=
  match e with HttpGet _ => true | _ => false end.

End Eff.

Declare Scope js_scope.
Delimit Scope js_scope with js.
Notation "x <- m ;; k" := (Eff.bind m (fun x => k))
  (at level 61, m at next level, right associativity) : js_scope.
Notation "m ;; k" := (Eff.bind m (fun _ => k))
  (at level 61, right associativity) : js_scope.

Definition dquote : string := String (ascii_of_nat 34) EmptyString.

(** ** scripts/validate-react-versions.js *)

Module Validate.
Import Eff.
Open Scope js_scope.

(** What the script finds when it reads [package.json].  The dependency
    entries of a manifest are strings; [None] is an absent entry
    ([undefined]).  [ManifestThrows] covers every failure of
    [fs.readFileSync] and [JSON.parse], with the message of the error. *)
Inductive manifest_file : Type :=
| ManifestThrows (msg : string)
| ManifestDeps (react react_dom : option string).

(** What the script finds at [node_modules/<pkg>/package.json]: no file,
    a file that cannot be read or parsed, or a parsed object with its
    [version] field, a string ([None] when the field is missing). *)
Inductive metadata_file : Type :=
| Missing
| Unreadable (msg : string)
| Metadata (version : option string).

Record env : Type := mkEnv {
  manifest : manifest_file;
  installed_react : metadata_file;
  installed_react_dom : metadata_file
}.

Record version : Type := mkVersion {
  major : Num.number;
  minor : Num.number;
  patch : Num.number
}.

(** Lines 31-39. *)
Definition getVersionNumber (versionString : string) : option version :=
  match Regex.regex_match versionString with
  | None => None
  | Some m =>
      Some (mkVersion (Num.parseInt (Regex.g1 m))
                      (Num.parseInt (Regex.g2 m))
                      (Num.parseInt (Regex.g3 m)))
  end.

(** [!v] for a value that is a string or [undefined]. *)
Definition falsy (v : option string) : bool :=
  match v with
  | None => true
  | Some s => Str.is_empty s
  end.

(** The text a template literal gives for a string or [undefined]. *)
Definition show (v : option string) : string :=
  match v with
  | None => "undefined"
  | Some s => s
  end.

Definition existsSync (f : metadata_file) : bool :=
  match f with Missing => false | _ => true end.

(** [JSON.parse(fs.readFileSync(path, 'utf8'))], then the [version]
    property of the result. *)
Definition read_version (f : metadata_file) : M (option string) :=
  match f with
  | Missing => throw "ENOENT: no such file or directory"
  | Unreadable msg => throw msg
  | Metadata v => ret v
  end.

(** [v.startsWith(p)]; on [undefined] the property access throws a
    [TypeError]. *)
Definition startsWith_of (v : option string) (p : string) : M bool :=
  match v with
  | None => throw "Cannot read properties of undefined (reading 'startsWith')"
  | Some s => ret (Str.startsWith s p)
  end.

(** Lines 49-60. *)
Definition critical_lines : list string :=
  [ "❌ CRITICAL: React 19 + ReactDOM 17 detected!";
    "❌ This causes runtime error: " ++ dquote ++
      "Cannot read properties of undefined (reading 'ReactCurrentDispatcher')"
      ++ dquote;
    "❌ React 19 internal APIs are incompatible with ReactDOM 17";
    EmptyString;
    "🔧 SOLUTION OPTIONS:";
    "   1. Upgrade react-dom to 19.x.x (recommended)";
    "   2. Downgrade react to 17.x.x";
    EmptyString;
    "🚨 BUILD FAILED: Fix React version compatibility before proceeding" ].

Fixpoint error_all (ls : list string) : M unit :=
  match ls with
  | [] => ret tt
  | l :: ls' => console_error l ;; error_all ls'
  end.

Definition check_declared (reactVer reactDomVer : version) : M unit :=
  if Num.eqb (major reactVer) (Num.Finite 19)
     && Num.eqb (major reactDomVer) (Num.Finite 17)
  then error_all critical_lines ;; exit 1
  else ret tt.

(** Lines 62-67. *)
Definition mismatch_lines (reactVer reactDomVer : version) : list message :=
  [ [Text "⚠️  WARNING: React major version mismatch detected"];
    [Text "   React: v"; Value (major reactVer);
     Text ".x.x, ReactDOM: v"; Value (major reactDomVer); Text ".x.x"];
    [Text "   This may cause compatibility issues"] ].

Fixpoint warn_all (ls : list message) : M unit :=
  match ls with
  | [] => ret tt
  | l :: ls' => console_warn l ;; warn_all ls'
  end.

Definition check_mismatch (reactVer reactDomVer : version) : M unit :=
  if negb (Num.eqb (major reactVer) (major reactDomVer))
  then warn_all (mismatch_lines reactVer reactDomVer)
  else ret tt.

(** Lines 81-87. *)
Definition installed_error : string :=
  "❌ RUNTIME ERROR DETECTED IN INSTALLED PACKAGES!".

Definition installed_lines : list string :=
  [ installed_error;
    "❌ React 19 + ReactDOM 17 will cause ReactCurrentDispatcher error";
    "❌ This is the exact error condition you reported" ].

Definition soft_warning : string :=
  "⚠️  Could not check installed versions in node_modules".

(** Lines 71-88, the body of the inner [try]. *)
Definition check_installed_body (e : env) : M unit :=
  if existsSync (installed_react e) && existsSync (installed_react_dom e)
  then
    installedReact <- read_version (installed_react e) ;;
    installedReactDom <- read_version (installed_react_dom e) ;;
    console_log ("📦 Installed React: " ++ show installedReact) ;;
    console_log ("📦 Installed ReactDOM: " ++ show installedReactDom) ;;
    is19 <- startsWith_of installedReact "19." ;;
    if is19 : bool
    then
      is17 <- startsWith_of installedReactDom "17." ;;
      if is17 : bool
      then error_all installed_lines ;; exit 1
      else ret tt
    else ret tt
  else ret tt.

(** Lines 70-91. *)
Definition check_installed (e : env) : M unit :=
  try_catch (check_installed_body e)
            (fun nodeModulesError => console_log soft_warning).

(** Lines 17-21: the two declared version strings. *)
Definition read_manifest (e : env) : M (option string * option string) :=
  match manifest e with
  | ManifestThrows msg => throw msg
  | ManifestDeps r d => ret (r, d)
  end.

(** Lines 16-93, the body of the outer [try]. *)
Definition validate_body (e : env) : M unit :=
  deps <- read_manifest e ;;
  let reactVersion := fst deps in
  let reactDomVersion := snd deps in
  if falsy reactVersion || falsy reactDomVersion
  then throw "React or ReactDOM not found in dependencies"
  else
    console_log ("📦 React version: " ++ show reactVersion) ;;
    console_log ("📦 ReactDOM version: " ++ show reactDomVersion) ;;
    match getVersionNumber (show reactVersion),
          getVersionNumber (show reactDomVersion) with
    | Some reactVer, Some reactDomVer =>
        check_declared reactVer reactDomVer ;;
        check_mismatch reactVer reactDomVer ;;
        check_installed e ;;
        console_log "✅ React version compatibility check passed"
    | _, _ => throw "Unable to parse React version numbers"
    end.

(** Lines 12-99. *)
Definition validateReactVersions (e : env) : M unit :=
  console_log "🔍 Validating React version compatibility..." ;;
  try_catch (validate_body e)
            (fun error =>
               console_error ("❌ React version validation failed: " ++ error) ;;
               exit 1).

(** The words of the specification for the installed-package check: the
    19/17 majors rule of the declared versions, applied to the installed
    version strings. *)
Definition majors_19_17 (installedReact installedReactDom : string) : bool :=
  match getVersionNumber installedReact,
        getVersionNumber installedReactDom with
  | Some r, Some d =>
      Num.eqb (major r) (Num.Finite 19) && Num.eqb (major d) (Num.Finite 17)
  | _, _ => false
  end.

(** What the source does instead: a test on the first three characters. *)
Definition prefixes_19_17 (installedReact installedReactDom : string) : bool :=
  Str.startsWith installedReact "19." && Str.startsWith installedReactDom "17.".

(** How the installed-package check of lines 70-91 goes, read off the
    two metadata files: the guard of line 74 is false ([Skipped]); an
    exception reaches the inner [catch] ([ReadFailed]); the test of line 82
    is evaluated and false ([Passed]) or true ([Conflict]). *)
Inductive cross_check : Type := Skipped | ReadFailed | Passed | Conflict.

Definition classify (e : env) : cross_check :=
  match installed_react e, installed_react_dom e with
  | Missing, _ => Skipped
  | _, Missing => Skipped
  | Metadata (Some r), Metadata (Some d) =>
      if prefixes_19_17 r d then Conflict else Passed
  | Metadata (Some r), Metadata None =>
      if Str.startsWith r "19." then ReadFailed else Passed
  | _, _ => ReadFailed
  end.

(** The declared versions parse and are not the 19/17 pair: the script
    reaches the installed-package check. *)
Definition declared_ok (e : env) : Prop :=
  exists rv dv r d,
    manifest e = ManifestDeps (Some rv) (Some dv) /\
    getVersionNumber rv = Some r /\ getVersionNumber dv = Some d /\
    ~ (major r = Num.Finite 19 /\ major d = Num.Finite 17).

Definition printed (l : level) (s : string) (m : M unit) : Prop :=
  In (Console l [Text s]) (trace m).

(** A version string as a package's own metadata records it: it begins
    with MAJOR.MINOR.PATCH, the major number written without a leading
    zero. *)
Definition no_leading_zero (d : string) : Prop :=
  d = "0" \/ Str.startsWith d "0" = false.

Definition canonical (s : string) : Prop :=
  exists ma mi pa rest,
    s = ma ++ "." ++ mi ++ "." ++ pa ++ rest /\
    Regex.digit_group ma /\ Regex.digit_group mi /\ Regex.digit_group pa /\
    no_leading_zero ma.

(** The first lines of every run that gets past the manifest. *)
Definition preamble (rv dv : string) : list event :=
  [ Console Log [Text "🔍 Validating React version compatibility..."];
    Console Log [Text ("📦 React version: " ++ rv)];
    Console Log [Text ("📦 ReactDOM version: " ++ dv)] ].

Definition passed_line : event :=
  Console Log [Text "✅ React version compatibility check passed"].

Definition failed_line (msg : string) : event :=
  Console Error [Text ("❌ React version validation failed: " ++ msg)].

(** The first line of the diagnostic of lines 50-58. *)
Definition critical_headline : string :=
  "❌ CRITICAL: React 19 + ReactDOM 17 detected!".

Definition not_found_message : string :=
  "React or ReactDOM not found in dependencies".

Definition validating_line : event :=
  Console Log [Text "🔍 Validating React version compatibility..."].

Definition installed_log (label : string) (v : option string) : event :=
  Console Log [Text (label ++ show v)].

End Validate.

(** ** The runtime smoke test *)

Module Runtime.
Import Eff.
Open Scope js_scope.

(** How [testPromise] is settled first: the response ended with this
    body, the request emitted [error], or the 5-second timeout fired.
    These are the three places where lines 49-83 call [resolve] or
    [reject].  A run in which none of them is reached (a response cut
    before [end], a [spawn] that fails during the wait) prints no verdict
    and is not one of these outcomes. *)
Inductive probe_outcome : Type :=
| Response (body : string)
| RequestError (msg : string)
| RequestTimeout.

Record env : Type := mkEnv {
  build_exists : bool;
  probe : probe_outcome
}.

Definition root_div : string := "<div id=" ++ dquote ++ "root" ++ dquote ++ ">".
Definition root_id : string := "id=" ++ dquote ++ "root" ++ dquote.

(** Line 58. *)
Definition has_root (data : string) : bool :=
  Str.includes data root_div || Str.includes data root_id.

(** Lines 62-65. *)
Definition has_error_signature (data : string) : bool :=
  Str.includes data "Cannot read properties of undefined"
  || Str.includes data "ReactCurrentDispatcher"
  || Str.includes data "React error"
  || Str.includes data "TypeError".

Definition root_not_found : string := "React app root element not found".
Definition runtime_error : string :=
  "React runtime error detected in HTML output".

(** Lines 56-73, the [end] listener of the response: [resolve()] is a
    return, [reject(new Error(m))] a throw at the [await]. *)
Definition on_end (data : string) : M unit :=
  if has_root data
  then
    console_log "✅ Basic HTML structure looks good" ;;
    if has_error_signature data
    then throw runtime_error
    else ret tt
  else throw root_not_found.

(** Lines 48-86: the request and the [await] of its promise. *)
Definition testPromise (e : env) : M unit :=
  emit (HttpGet "http://localhost:3001") ;;
  match probe e with
  | Response body => on_end body
  | RequestError msg => throw ("HTTP request failed: " ++ msg)
  | RequestTimeout => throw "HTTP request timeout"
  end.

(** Lines 89-93. *)
Definition on_failure (error : string) : M unit :=
  console_error ("❌ Runtime test failed: " ++ error) ;;
  console_error "This suggests React 19 + ReactDOM 17 compatibility issues." ;;
  console_error "Consider upgrading ReactDOM to match React version." ;;
  exit 1.

(** Lines 15-98.  The listeners of lines 33-39 only fill two buffers that
    nothing reads; they are left out. *)
Definition testRuntime (e : env) : M unit :=
  console_log "🔍 Testing runtime compatibility..." ;;
  (if negb (build_exists e)
   then
     console_error "❌ Build directory not found. Run yarn build:only first." ;;
     exit 1
   else ret tt) ;;
  emit (Spawn "npx" ["serve"; "-s"; "build"; "-p"; "3001"]) ;;
  emit (Sleep 2000) ;;
  try_finally
    (try_catch
       (testPromise e ;;
        console_log "✅ Runtime compatibility test passed")
       on_failure)
    (emit Kill).

(** Lines 100-103: the script itself. *)
Definition main (e : env) : M unit :=
  try_catch (testRuntime e)
            (fun error =>
               console_error ("❌ Test script failed: " ++ error) ;;
               exit 1).

(** [serve.kill()] was executed in this run. *)
Definition killed (m : M unit) : bool := existsb is_kill (trace m).

(** [spawn] was called in this run. *)
Definition spawned (m : M unit) : bool := existsb is_spawn (trace m).

Definition printed (l : level) (s : string) (m : M unit) : Prop :=
  In (Console l [Text s]) (trace m).

(** What every run prints and does up to the [try] of line 44. *)
Definition startup : list event :=
  [ Console Log [Text "🔍 Testing runtime compatibility..."];
    Spawn "npx" ["serve"; "-s"; "build"; "-p"; "3001"];
    Sleep 2000 ].

(** The three lines of the [catch] block of lines 89-93. *)
Definition failure_lines (error : string) : list event :=
  [ Console Error [Text ("❌ Runtime test failed: " ++ error)];
    Console Error
      [Text "This suggests React 19 + ReactDOM 17 compatibility issues."];
    Console Error
      [Text "Consider upgrading ReactDOM to match React version."] ].

Definition request : event := HttpGet "http://localhost:3001".

Definition structure_ok : event :=
  Console Log [Text "✅ Basic HTML structure looks good"].

(** The four needles of lines 62-65, in the order they are tried. *)
Definition error_signatures : list string :=
  [ "Cannot read properties of undefined";
    "ReactCurrentDispatcher";
    "React error";
    "TypeError" ].

Definition passed_line : event :=
  Console Log [Text "✅ Runtime compatibility test passed"].

(** The probe of lines 48-84 resolves: a response ended whose body has
    the root marker and none of the error signatures. *)
Definition probe_passes (e : env) : Prop :=
  exists body,
    probe e = Response body /\
    Str.includes body root_id = true /\
    has_error_signature body = false.

End Runtime.

(** * Properties *)

(** ** Strings *)

Section StringFacts.
Import Str.

Lemma append_assoc (a b c : string) : (a ++ b) ++ c = a ++ (b ++ c).
Proof.
  induction a as [|x a IH]; simpl; [reflexivity|].
  now rewrite IH.
Qed.

Lemma startsWith_iff (s p : string) :
  startsWith s p = true <-> exists post, s = p ++ post.
Proof.
  revert s; induction p as [|c p IH]; intros s; simpl.
  - split; [intros _; now exists s | reflexivity].
  - destruct s as [|d s].
    + split; [discriminate | intros [post H]; discriminate].
    + rewrite andb_true_iff, Ascii.eqb_eq, IH. split.
      * intros [-> [post ->]]. now exists post.
      * intros [post H]. injection H as -> ->. split; [reflexivity|].
        now exists post.
Qed.

Lemma includes_iff (s p : string) :
  includes s p = true <-> exists pre post, s = pre ++ p ++ post.
Proof.
  induction s as [|d s IH]; simpl.
  - rewrite orb_false_r, startsWith_iff. split.
    + intros [post H]. now exists EmptyString, post.
    + intros [[|x pre] [post H]]; [now exists post | discriminate].
  - rewrite orb_true_iff, startsWith_iff, IH. split.
    + intros [[post H] | (pre & post & H)].
      * now exists EmptyString, post.
      * exists (String d pre), post. simpl. now rewrite H.
    + intros [[|x pre] [post H]].
      * left. now exists post.
      * right. simpl in H. injection H as _ ->. now exists pre, post.
Qed.

(** A string that contains [a ++ p ++ b] contains [p]. *)
Lemma includes_infix (s a p b : string) :
  includes s (a ++ p ++ b) = true -> includes s p = true.
Proof.
  rewrite !includes_iff. intros (pre & post & ->).
  exists (pre ++ a), (b ++ post).
  now rewrite !append_assoc.
Qed.

Lemma span_digits_spec (s : string) :
  s = fst (span_digits s) ++ snd (span_digits s) /\
  all_digits (fst (span_digits s)) = true /\
  (forall c r, snd (span_digits s) = String c r -> is_digit c = false).
Proof.
  induction s as [|c s (IH1 & IH2 & IH3)]; simpl.
  - repeat split. discriminate.
  - destruct (is_digit c) eqn:Hc.
    + destruct (span_digits s) as [d r]; simpl in *.
      repeat split; [now rewrite <- IH1 | now rewrite Hc | exact IH3].
    + simpl. repeat split. intros c' r' H. now injection H as -> _.
Qed.

(** A digit run followed by something that is not a digit is exactly what
    [span_digits] takes. *)
Lemma span_digits_run (d r : string) :
  all_digits d = true ->
  (forall c r', r = String c r' -> is_digit c = false) ->
  span_digits (d ++ r) = (d, r).
Proof.
  intros Hd Hr. induction d as [|c d IH]; simpl in *.
  - destruct r as [|c r']; [reflexivity|].
    simpl. now rewrite (Hr c r' eq_refl).
  - apply andb_true_iff in Hd as [Hc Hd]. now rewrite Hc, IH.
Qed.

Lemma span_digits_nonempty (d r : string) :
  is_empty d = false -> all_digits d = true ->
  is_empty (fst (span_digits (d ++ r))) = false.
Proof.
  destruct d as [|c d]; [discriminate|]. simpl. intros _ H.
  apply andb_true_iff in H as [-> _].
  now destruct (span_digits (d ++ r)).
Qed.

End StringFacts.

(** ** The regular expression *)

Section RegexFacts.
Import Str Regex.

Lemma match_here_sound (s : string) (g : groups) :
  match_here s = Some g ->
  exists post,
    s = g1 g ++ "." ++ g2 g ++ "." ++ g3 g ++ post /\
    digit_group (g1 g) /\ digit_group (g2 g) /\ digit_group (g3 g).
Proof.
  unfold match_here.
  destruct (span_digits_spec s) as (E1 & A1 & _).
  destruct (span_digits s) as [d1 r1]; simpl in *.
  destruct (is_empty d1) eqn:N1; [discriminate|].
  destruct r1 as [|c1 r1']; [discriminate|].
  destruct (Ascii.eqb_spec c1 "."%char) as [->|Hc].
  2:{ intros H; exfalso.
      destruct c1 as [[] [] [] [] [] [] [] []]; try discriminate H.
      now apply Hc. }
  destruct (span_digits_spec r1') as (E2 & A2 & _).
  destruct (span_digits r1') as [d2 r2]; simpl in *.
  destruct (is_empty d2) eqn:N2; [discriminate|].
  destruct r2 as [|c2 r2']; [discriminate|].
  destruct (Ascii.eqb_spec c2 "."%char) as [->|Hc].
  2:{ intros H; exfalso.
      destruct c2 as [[] [] [] [] [] [] [] []]; try discriminate H.
      now apply Hc. }
  destruct (span_digits_spec r2') as (E3 & A3 & _).
  destruct (span_digits r2') as [d3 r3]; simpl in *.
  destruct (is_empty d3) eqn:N3; [discriminate|].
  intros H; injection H as <-. simpl.
  exists r3. unfold digit_group. repeat split; try assumption.
  rewrite E1 at 1. rewrite E2 at 1. now rewrite E3 at 1.
Qed.

Lemma match_here_complete (d1 d2 d3 post : string) :
  digit_group d1 -> digit_group d2 -> digit_group d3 ->
  exists g, match_here (d1 ++ "." ++ d2 ++ "." ++ d3 ++ post) = Some g /\
            g1 g = d1 /\ g2 g = d2.
Proof.
  intros [N1 A1] [N2 A2] [N3 A3]. unfold match_here.
  rewrite (span_digits_run d1); [|assumption|].
  2:{ intros c r' H. simpl in H. now injection H as <- _. }
  rewrite N1. simpl.
  rewrite (span_digits_run d2); [|assumption|].
  2:{ intros c r' H. simpl in H. now injection H as <- _. }
  rewrite N2.
  pose proof (span_digits_nonempty d3 post N3 A3) as N.
  destruct (span_digits (d3 ++ post)) as [d3' r3]; simpl in N.
  rewrite N. now eexists.
Qed.

Theorem regex_match_sound (s : string) (g : groups) :
  regex_match s = Some g -> has_triple s.
Proof.
  induction s as [|c s IH]; simpl.
  - destruct (match_here EmptyString) eqn:E; [|discriminate].
    discriminate E.
  - destruct (match_here (String c s)) as [g'|] eqn:E.
    + intros _. apply match_here_sound in E as (post & E & H).
      exists EmptyString, (g1 g'), (g2 g'), (g3 g'), post. now split.
    + intros H. destruct (IH H) as (pre & d1 & d2 & d3 & post & -> & Hd).
      exists (String c pre), d1, d2, d3, post. now split.
Qed.

Lemma regex_match_here (s : string) (g : groups) :
  match_here s = Some g -> regex_match s = Some g.
Proof.
  intros E. destruct s; [discriminate E|].
  cbn [regex_match]. now rewrite E.
Qed.

Theorem regex_match_complete (s : string) :
  has_triple s -> exists g, regex_match s = Some g.
Proof.
  intros (pre & d1 & d2 & d3 & post & -> & H1 & H2 & H3).
  induction pre as [|c pre IH].
  - destruct (match_here_complete d1 d2 d3 post H1 H2 H3) as (g & E & _).
    exists g. now apply regex_match_here.
  - simpl. destruct (match_here _); [now eexists | exact IH].
Qed.

(** The matcher fails exactly on the strings without a numeric triple. *)
Corollary regex_match_none_iff (s : string) :
  regex_match s = None <-> ~ has_triple s.
Proof.
  split.
  - intros E H. apply regex_match_complete in H as [g H]. congruence.
  - intros H. destruct (regex_match s) as [g|] eqn:E; [|reflexivity].
    exfalso. apply H. now apply regex_match_sound with g.
Qed.

End RegexFacts.

(** ** The effect monad *)

Section EffFacts.
Import Eff.

Lemma bind_ret_l {A B} (a : A) (k : A -> M B) : bind (ret a) k = k a.
Proof. unfold bind, ret. now destruct (k a). Qed.

Lemma bind_emit {B} (ev : event) (k : unit -> M B) :
  bind (emit ev) k = (fst (k tt), ev :: snd (k tt)).
Proof. unfold bind, emit. now destruct (k tt). Qed.

Lemma bind_returned {A B} (a : A) (t : list event) (k : A -> M B) :
  bind (Returned a, t) k = (fst (k a), (t ++ snd (k a))%list).
Proof. unfold bind. now destruct (k a). Qed.

Lemma bind_exited {A B} (c : Z) (t : list event) (k : A -> M B) :
  bind (Exited c, t) k = (Exited c, t).
Proof. reflexivity. Qed.

Lemma bind_thrown {A B} (msg : string) (t : list event) (k : A -> M B) :
  bind (Thrown msg, t) k = (Thrown msg, t).
Proof. reflexivity. Qed.

(** [process.exit] is not an exception: no handler sees it. *)
Lemma try_catch_exited {A} (c : Z) (t : list event) (h : string -> M A) :
  try_catch (Exited c, t) h = (Exited c, t).
Proof. reflexivity. Qed.

(** ... and no [finally] block runs after it. *)
Lemma try_finally_exited {A} (c : Z) (t : list event) (f : M unit) :
  try_finally (A := A) (Exited c, t) f = (Exited c, t).
Proof. reflexivity. Qed.

Lemma try_finally_returned {A} (a : A) (t : list event) (ev : event) :
  try_finally (Returned a, t) (emit ev) = (Returned a, (t ++ [ev])%list).
Proof. reflexivity. Qed.

Lemma num_eqb_eq (a b : Num.number) : Num.eqb a b = true <-> a = b.
Proof.
  destruct a as [x|], b as [y|]; simpl; try (split; congruence).
  rewrite N.eqb_eq. split; congruence.
Qed.

End EffFacts.

(** ** The version validator *)

Section ValidateFacts.
Import Eff Validate.
Open Scope js_scope.

Lemma getVersionNumber_nonempty (s : string) (v : version) :
  getVersionNumber s = Some v -> Str.is_empty s = false.
Proof. destruct s; [discriminate | reflexivity]. Qed.

Lemma getVersionNumber_none_iff (s : string) :
  getVersionNumber s = None <-> ~ Regex.has_triple s.
Proof.
  rewrite <- regex_match_none_iff. unfold getVersionNumber.
  destruct (Regex.regex_match s); split; congruence.
Qed.

Lemma error_all_run (ls : list string) :
  error_all ls = (Returned tt, map (fun l => Console Error [Text l]) ls).
Proof.
  induction ls as [|l ls IH]; [reflexivity|].
  cbn [error_all]. unfold console_error. now rewrite bind_emit, IH.
Qed.

Lemma warn_all_run (ls : list message) :
  warn_all ls = (Returned tt, map (Console Warn) ls).
Proof.
  induction ls as [|l ls IH]; [reflexivity|].
  cbn [warn_all]. unfold console_warn. now rewrite bind_emit, IH.
Qed.

Lemma check_declared_critical (r d : version) :
  major r = Num.Finite 19 -> major d = Num.Finite 17 ->
  check_declared r d =
  (Exited 1, map (fun l => Console Error [Text l]) critical_lines).
Proof.
  intros Hr Hd. unfold check_declared. rewrite Hr, Hd. simpl andb. cbv iota.
  now rewrite error_all_run, bind_returned, app_nil_r.
Qed.

Lemma check_declared_ok (r d : version) :
  ~ (major r = Num.Finite 19 /\ major d = Num.Finite 17) ->
  check_declared r d = (Returned tt, []).
Proof.
  intros H. unfold check_declared.
  destruct (Num.eqb (major r) (Num.Finite 19)
            && Num.eqb (major d) (Num.Finite 17)) eqn:E; [|reflexivity].
  apply andb_true_iff in E as [E1 E2].
  apply num_eqb_eq in E1, E2. now elim H.
Qed.

Lemma check_mismatch_equal (r d : version) :
  major r = major d -> check_mismatch r d = (Returned tt, []).
Proof.
  intros E. unfold check_mismatch.
  now rewrite (proj2 (num_eqb_eq _ _) E).
Qed.

Lemma check_mismatch_differ (r d : version) :
  major r <> major d ->
  check_mismatch r d = (Returned tt, map (Console Warn) (mismatch_lines r d)).
Proof.
  intros H. unfold check_mismatch.
  destruct (Num.eqb (major r) (major d)) eqn:E.
  - apply num_eqb_eq in E. contradiction.
  - simpl negb. cbv iota. apply warn_all_run.
Qed.

(** Once both declared strings parse, the body of the outer [try] is the
    sequence of the three checks. *)
Lemma validate_body_parsed (e : env) (rv dv : string) (r d : version) :
  manifest e = ManifestDeps (Some rv) (Some dv) ->
  getVersionNumber rv = Some r -> getVersionNumber dv = Some d ->
  validate_body e =
  (console_log ("📦 React version: " ++ rv) ;;
   console_log ("📦 ReactDOM version: " ++ dv) ;;
   check_declared r d ;;
   check_mismatch r d ;;
   check_installed e ;;
   console_log "✅ React version compatibility check passed").
Proof.
  intros Hm Hr Hd. unfold validate_body, read_manifest.
  rewrite Hm, bind_ret_l. cbv beta zeta. unfold fst, snd, falsy, show.
  rewrite (getVersionNumber_nonempty _ _ Hr), (getVersionNumber_nonempty _ _ Hd).
  simpl orb. cbv iota. now rewrite Hr, Hd.
Qed.

End ValidateFacts.

(** ** The installed-package check *)

Section InstalledFacts.
Import Eff Validate.
Open Scope js_scope.

Ltac run_installed :=
  unfold check_installed, check_installed_body, classify, prefixes_19_17,
    read_version, startsWith_of, existsSync, console_log, console_error;
  cbn [installed_react installed_react_dom andb];
  rewrite ?bind_ret_l, ?bind_thrown, ?bind_emit.

(** Both files absent or only one present: nothing is read, nothing is
    printed. *)
Lemma check_installed_skipped (e : env) :
  existsSync (installed_react e) && existsSync (installed_react_dom e) = false ->
  check_installed e = (Returned tt, []).
Proof.
  intros H. unfold check_installed, check_installed_body. now rewrite H.
Qed.

(** Both files parsed, both with a [version] string: the prefix test of
    line 82 decides. *)
Lemma check_installed_readable (e : env) (r d : string) :
  installed_react e = Metadata (Some r) ->
  installed_react_dom e = Metadata (Some d) ->
  check_installed e =
  if prefixes_19_17 r d
  then (Exited 1,
        [Console Log [Text ("📦 Installed React: " ++ r)];
         Console Log [Text ("📦 Installed ReactDOM: " ++ d)]]
        ++ map (fun l => Console Error [Text l]) installed_lines)%list
  else (Returned tt,
        [Console Log [Text ("📦 Installed React: " ++ r)];
         Console Log [Text ("📦 Installed ReactDOM: " ++ d)]]).
Proof.
  intros Hr Hd. destruct e as [m ir id]. simpl in Hr, Hd. subst ir id.
  run_installed.
  destruct (Str.startsWith r "19."), (Str.startsWith d "17."); reflexivity.
Qed.

Lemma check_installed_result (e : env) :
  fst (check_installed e) =
  match classify e with
  | Conflict => Exited 1
  | _ => Returned tt
  end.
Proof.
  destruct e as [m [|mr|[r|]] [|md|[d|]]]; run_installed; try reflexivity;
    try (destruct (Str.startsWith r "19."); try reflexivity;
         destruct (Str.startsWith d "17."); reflexivity).
Qed.

Lemma check_installed_no_warn (e : env) :
  existsb is_warn (trace (check_installed e)) = false.
Proof.
  destruct e as [m [|mr|[r|]] [|md|[d|]]]; run_installed; try reflexivity;
    try (destruct (Str.startsWith r "19."); try reflexivity;
         destruct (Str.startsWith d "17."); reflexivity).
Qed.

Ltac not_soft :=
  unfold trace, snd; simpl; intros H;
  repeat (destruct H as [H|H]; [discriminate H|]); contradiction.

(** The soft warning is printed exactly when an exception reached the
    inner [catch]. *)
Lemma check_installed_soft (e : env) :
  In (Console Log [Text soft_warning]) (trace (check_installed e)) <->
  classify e = ReadFailed.
Proof.
  destruct e as [m [|mr|[r|]] [|md|[d|]]]; run_installed;
    try destruct (Str.startsWith r "19.");
    try destruct (Str.startsWith d "17.");
    (split;
     [ first [ intros _; reflexivity | not_soft ]
     | first [ discriminate | intros _; simpl; tauto ] ]).
Qed.

(** A line on the error stream comes from the failing branch only. *)
Lemma check_installed_error (e : env) (m : message) :
  In (Console Error m) (trace (check_installed e)) -> classify e = Conflict.
Proof.
  destruct e as [f [|mr|[r|]] [|md|[d|]]]; run_installed;
    try destruct (Str.startsWith r "19.");
    try destruct (Str.startsWith d "17.");
    first [ intros _; reflexivity | not_soft ].
Qed.

(** The only lines the check puts on the error stream are the three
    installed-packages lines. *)
Lemma check_installed_error_lines (e : env) (s : string) :
  In (Console Error [Text s]) (trace (check_installed e)) ->
  In s installed_lines.
Proof.
  destruct e as [f [|mr|[r|]] [|md|[d|]]]; run_installed;
    try destruct (Str.startsWith r "19.");
    try destruct (Str.startsWith d "17.");
    try not_soft.
  unfold trace, snd. simpl. intros H.
  repeat (destruct H as [H|H];
          [first [discriminate H | injection H as <-; simpl; tauto]|]).
  contradiction.
Qed.

(** The confirmation of line 93 is not one of its lines. *)
Lemma check_installed_no_pass (e : env) :
  ~ In passed_line (trace (check_installed e)).
Proof.
  unfold passed_line.
  destruct e as [f [|mr|[r|]] [|md|[d|]]]; run_installed;
    try destruct (Str.startsWith r "19.");
    try destruct (Str.startsWith d "17.");
    unfold soft_warning; not_soft.
Qed.

(** An installed react that does not start with "19." ends the test of
    line 82 at its first operand. *)
Lemma check_installed_not_19 (e : env) (r : string) (dv : option string) :
  installed_react e = Metadata (Some r) ->
  installed_react_dom e = Metadata dv ->
  Str.startsWith r "19." = false ->
  check_installed e =
  (Returned tt,
   [installed_log "📦 Installed React: " (Some r);
    installed_log "📦 Installed ReactDOM: " dv]).
Proof.
  intros Hr Hd Hs. destruct e as [f ir id]. simpl in Hr, Hd. subst ir id.
  run_installed. now rewrite Hs.
Qed.

(** A [version] that the test of line 82 needs and does not find. *)
Lemma check_installed_no_version (e : env) (rv dv : option string) :
  installed_react e = Metadata rv ->
  installed_react_dom e = Metadata dv ->
  rv = None \/
  (exists r, rv = Some r /\ Str.startsWith r "19." = true /\ dv = None) ->
  check_installed e =
  (Returned tt,
   [installed_log "📦 Installed React: " rv;
    installed_log "📦 Installed ReactDOM: " dv;
    Console Log [Text soft_warning]]).
Proof.
  intros Hr Hd H. destruct e as [f ir id]. simpl in Hr, Hd. subst ir id.
  destruct H as [-> | (r & -> & Hs & ->)]; run_installed.
  - reflexivity.
  - now rewrite Hs.
Qed.

End InstalledFacts.

(** ** Runs of the validator *)

Section ValidateRuns.
Import Eff Validate.
Open Scope js_scope.

Lemma check_mismatch_returns (r d : version) :
  fst (check_mismatch r d) = Returned tt.
Proof.
  unfold check_mismatch. destruct (negb _); [|reflexivity].
  now rewrite warn_all_run.
Qed.

(** A run that gets past the declared-version rule ends as the
    installed-package check ends. *)
Lemma validate_run (e : env) (rv dv : string) (r d : version) :
  manifest e = ManifestDeps (Some rv) (Some dv) ->
  getVersionNumber rv = Some r -> getVersionNumber dv = Some d ->
  ~ (major r = Num.Finite 19 /\ major d = Num.Finite 17) ->
  validateReactVersions e =
  match classify e with
  | Conflict =>
      (Exited 1,
       preamble rv dv ++ trace (check_mismatch r d)
         ++ trace (check_installed e))%list
  | _ =>
      (Returned tt,
       preamble rv dv ++ trace (check_mismatch r d)
         ++ trace (check_installed e) ++ [passed_line])%list
  end.
Proof.
  intros Hm Hr Hd Hn. unfold validateReactVersions.
  rewrite (validate_body_parsed e rv dv r d Hm Hr Hd).
  rewrite (check_declared_ok r d Hn).
  pose proof (check_mismatch_returns r d) as Hc.
  pose proof (check_installed_result e) as Hi.
  unfold trace.
  destruct (check_mismatch r d) as [cm tm], (check_installed e) as [ci ti].
  simpl in Hc, Hi. subst cm ci.
  destruct (classify e); cbn; rewrite ?app_nil_r; reflexivity.
Qed.

Lemma validate_critical (e : env) (rv dv : string) (r d : version) :
  manifest e = ManifestDeps (Some rv) (Some dv) ->
  getVersionNumber rv = Some r -> getVersionNumber dv = Some d ->
  major r = Num.Finite 19 -> major d = Num.Finite 17 ->
  validateReactVersions e =
  (Exited 1,
   preamble rv dv ++ map (fun l => Console Error [Text l]) critical_lines)%list.
Proof.
  intros Hm Hr Hd H19 H17. unfold validateReactVersions.
  rewrite (validate_body_parsed e rv dv r d Hm Hr Hd).
  rewrite (check_declared_critical r d H19 H17).
  reflexivity.
Qed.

(** A declared string without a numeric triple: the outer [catch] prints
    the failure and exits. *)
Lemma validate_unparsed (e : env) (rv dv : string) :
  manifest e = ManifestDeps (Some rv) (Some dv) ->
  getVersionNumber rv = None \/ getVersionNumber dv = None ->
  validateReactVersions e =
  if Str.is_empty rv || Str.is_empty dv
  then (Exited 1,
        [Console Log [Text "🔍 Validating React version compatibility..."];
         failed_line "React or ReactDOM not found in dependencies"])
  else (Exited 1,
        preamble rv dv ++ [failed_line "Unable to parse React version numbers"])%list.
Proof.
  intros Hm Hp. unfold validateReactVersions, validate_body, read_manifest.
  rewrite Hm, bind_ret_l. cbv beta zeta. unfold fst, snd, falsy, show.
  destruct (Str.is_empty rv || Str.is_empty dv); [reflexivity|].
  destruct (getVersionNumber rv) as [r|], (getVersionNumber dv) as [d|];
    try reflexivity.
  destruct Hp; discriminate.
Qed.

End ValidateRuns.

(** ** The declared-version rule *)

Section DeclaredVersions.
Import Eff Validate.

Lemma validate_run_pass (e : env) (rv dv : string) (r d : version) :
  manifest e = ManifestDeps (Some rv) (Some dv) ->
  getVersionNumber rv = Some r -> getVersionNumber dv = Some d ->
  ~ (major r = Num.Finite 19 /\ major d = Num.Finite 17) ->
  classify e <> Conflict ->
  validateReactVersions e =
  (Returned tt,
   preamble rv dv ++ trace (check_mismatch r d)
     ++ trace (check_installed e) ++ [passed_line])%list.
Proof.
  intros Hm Hr Hd Hn Hc.
  rewrite (validate_run e rv dv r d Hm Hr Hd Hn).
  destruct (classify e); try reflexivity. contradiction.
Qed.

(** C1.  Whenever the declared strings parse to majors 19 (react) and 17
    (react-dom), whatever the minor and patch numbers, the run prints the
    two declared versions and then, on the error stream, the nine lines
    of the CRITICAL diagnostic: the headline, the runtime error it
    causes, the two remedies (upgrade react-dom to 19.x.x, downgrade
    react to 17.x.x) and the build-failed line.  It ends in
    [process.exit(1)]: nothing is printed after that. *)
Theorem critical_pair_exits_1 (e : env) (rv dv : string) (r d : version) :
  manifest e = ManifestDeps (Some rv) (Some dv) ->
  getVersionNumber rv = Some r -> getVersionNumber dv = Some d ->
  major r = Num.Finite 19 -> major d = Num.Finite 17 ->
  validateReactVersions e =
  (Exited 1,
   [ Console Log [Text "🔍 Validating React version compatibility..."];
     Console Log [Text ("📦 React version: " ++ rv)];
     Console Log [Text ("📦 ReactDOM version: " ++ dv)];
     Console Error [Text "❌ CRITICAL: React 19 + ReactDOM 17 detected!"];
     Console Error
       [Text ("❌ This causes runtime error: " ++ dquote ++
              "Cannot read properties of undefined (reading 'ReactCurrentDispatcher')"
              ++ dquote)];
     Console Error
       [Text "❌ React 19 internal APIs are incompatible with ReactDOM 17"];
     Console Error [Text EmptyString];
     Console Error [Text "🔧 SOLUTION OPTIONS:"];
     Console Error [Text "   1. Upgrade react-dom to 19.x.x (recommended)"];
     Console Error [Text "   2. Downgrade react to 17.x.x"];
     Console Error [Text EmptyString];
     Console Error
       [Text "🚨 BUILD FAILED: Fix React version compatibility before proceeding"] ])
  /\ exit_code (validateReactVersions e) = 1%Z.
Proof.
  intros Hm Hr Hd H19 H17.
  rewrite (validate_critical e rv dv r d Hm Hr Hd H19 H17).
  split; reflexivity.
Qed.

Lemma critical_pair_exits_1_witness :
  exit_code
    (validateReactVersions
       (mkEnv (ManifestDeps (Some "^19.2.1") (Some "~17.0.2"))
              Missing Missing)) = 1%Z.
Proof.
  apply (critical_pair_exits_1
           (mkEnv (ManifestDeps (Some "^19.2.1") (Some "~17.0.2"))
                  Missing Missing)
           "^19.2.1" "~17.0.2"
           (mkVersion (Num.Finite 19) (Num.Finite 2) (Num.Finite 1))
           (mkVersion (Num.Finite 17) (Num.Finite 0) (Num.Finite 2)));
    reflexivity.
Defined.

(** C5.  When both declared strings parse and their majors are equal, and
    the installed-package check does not find the 19/17 pair, the script
    returns normally (exit code 0) and no [console.warn] line is printed;
    unless an exception interrupted the installed-package check, the soft
    warning of its [catch] is not printed either. *)
Theorem equal_majors_pass_silently
    (e : env) (rv dv : string) (r d : version) :
  manifest e = ManifestDeps (Some rv) (Some dv) ->
  getVersionNumber rv = Some r -> getVersionNumber dv = Some d ->
  major r = major d ->
  classify e <> Conflict ->
  exit_code (validateReactVersions e) = 0%Z /\
  existsb is_warn (trace (validateReactVersions e)) = false /\
  (classify e <> ReadFailed ->
   ~ printed Log soft_warning (validateReactVersions e)).
Proof.
  intros Hm Hr Hd Heq Hc.
  assert (Hn : ~ (major r = Num.Finite 19 /\ major d = Num.Finite 17)).
  { intros [H19 H17]. rewrite Heq in H19. congruence. }
  rewrite (validate_run_pass e rv dv r d Hm Hr Hd Hn Hc).
  rewrite (check_mismatch_equal r d Heq).
  split; [reflexivity|]. split.
  - unfold trace at 1. cbn [snd]. rewrite !existsb_app.
    rewrite check_installed_no_warn. reflexivity.
  - intros Hf. unfold printed, trace at 1. cbn [snd].
    rewrite !in_app_iff, check_installed_soft.
    intros [H | [H | [H | H]]].
    + unfold soft_warning in H. simpl in H.
      destruct H as [H|[H|[H|[]]]]; discriminate H.
    + destruct H.
    + contradiction.
    + unfold soft_warning, passed_line in H. simpl in H.
      destruct H as [H|[]]. discriminate H.
Qed.

Lemma equal_majors_pass_silently_witness :
  exit_code
    (validateReactVersions
       (mkEnv (ManifestDeps (Some "18.2.0") (Some "^18.3.1"))
              (Metadata (Some "18.2.0")) (Metadata (Some "18.3.1")))) = 0%Z.
Proof.
  apply (equal_majors_pass_silently
           (mkEnv (ManifestDeps (Some "18.2.0") (Some "^18.3.1"))
                  (Metadata (Some "18.2.0")) (Metadata (Some "18.3.1")))
           "18.2.0" "^18.3.1"
           (mkVersion (Num.Finite 18) (Num.Finite 2) (Num.Finite 0))
           (mkVersion (Num.Finite 18) (Num.Finite 3) (Num.Finite 1)));
    try reflexivity.
  discriminate.
Defined.

(** C6.  When both declared strings parse, their majors differ and are not
    the 19/17 pair, and the installed-package check does not find the
    19/17 pair, the script prints with [console.warn], right after the
    two declared versions, the three lines of the mismatch warning: the
    headline, the two majors, and "This may cause compatibility issues".
    It then runs the installed-package check, prints the confirmation and
    returns normally (exit code 0). *)
Theorem major_mismatch_warns_only
    (e : env) (rv dv : string) (r d : version) :
  manifest e = ManifestDeps (Some rv) (Some dv) ->
  getVersionNumber rv = Some r -> getVersionNumber dv = Some d ->
  major r <> major d ->
  ~ (major r = Num.Finite 19 /\ major d = Num.Finite 17) ->
  classify e <> Conflict ->
  validateReactVersions e =
  (Returned tt,
   [ Console Log [Text "🔍 Validating React version compatibility..."];
     Console Log [Text ("📦 React version: " ++ rv)];
     Console Log [Text ("📦 ReactDOM version: " ++ dv)];
     Console Warn
       [Text "⚠️  WARNING: React major version mismatch detected"];
     Console Warn
       [Text "   React: v"; Value (major r);
        Text ".x.x, ReactDOM: v"; Value (major d); Text ".x.x"];
     Console Warn [Text "   This may cause compatibility issues"] ]
   ++ trace (check_installed e)
   ++ [Console Log [Text "✅ React version compatibility check passed"]])%list
  /\ exit_code (validateReactVersions e) = 0%Z.
Proof.
  intros Hm Hr Hd Hne Hn Hc.
  rewrite (validate_run_pass e rv dv r d Hm Hr Hd Hn Hc).
  rewrite (check_mismatch_differ r d Hne).
  split; reflexivity.
Qed.

Lemma major_mismatch_warns_only_witness :
  exit_code
    (validateReactVersions
       (mkEnv (ManifestDeps (Some "18.2.0") (Some "17.0.2"))
              Missing Missing)) = 0%Z.
Proof.
  apply (major_mismatch_warns_only
           (mkEnv (ManifestDeps (Some "18.2.0") (Some "17.0.2"))
                  Missing Missing)
           "18.2.0" "17.0.2"
           (mkVersion (Num.Finite 18) (Num.Finite 2) (Num.Finite 0))
           (mkVersion (Num.Finite 17) (Num.Finite 0) (Num.Finite 2)));
    try reflexivity; try discriminate.
  intros [H _]. discriminate H.
Defined.

(** C7.  When at least one of the two declared strings has no substring
    of three dot-separated digit groups, the run ends in the [catch] of
    line 95: its last printed line is the validation-failed diagnostic and
    its completion is [process.exit(1)], never an uncaught exception. *)
Theorem malformed_version_caught (e : env) (rv dv : string) :
  manifest e = ManifestDeps (Some rv) (Some dv) ->
  ~ Regex.has_triple rv \/ ~ Regex.has_triple dv ->
  exists pre msg,
    validateReactVersions e = (Exited 1, (pre ++ [failed_line msg])%list) /\
    (msg = "React or ReactDOM not found in dependencies" \/
     msg = "Unable to parse React version numbers") /\
    forall m, fst (validateReactVersions e) <> Thrown m.
Proof.
  intros Hm H.
  assert (Hp : getVersionNumber rv = None \/ getVersionNumber dv = None).
  { destruct H as [H|H]; [left|right]; now apply getVersionNumber_none_iff. }
  rewrite (validate_unparsed e rv dv Hm Hp).
  destruct (Str.is_empty rv || Str.is_empty dv).
  - exists [Console Log [Text "🔍 Validating React version compatibility..."]].
    eexists. split; [reflexivity|]. split; [now left | discriminate].
  - exists (preamble rv dv). eexists.
    split; [reflexivity|]. split; [now right | discriminate].
Qed.

Lemma malformed_version_caught_witness :
  exists pre msg,
    validateReactVersions
      (mkEnv (ManifestDeps (Some "latest") (Some "18.2.0")) Missing Missing)
    = (Exited 1, (pre ++ [failed_line msg])%list) /\
    (msg = "React or ReactDOM not found in dependencies" \/
     msg = "Unable to parse React version numbers") /\
    forall m,
      fst (validateReactVersions
             (mkEnv (ManifestDeps (Some "latest") (Some "18.2.0"))
                    Missing Missing)) <> Thrown m.
Proof.
  apply (malformed_version_caught
           (mkEnv (ManifestDeps (Some "latest") (Some "18.2.0"))
                  Missing Missing)
           "latest" "18.2.0").
  - reflexivity.
  - left. apply regex_match_none_iff. reflexivity.
Defined.

End DeclaredVersions.

(** ** Numbers *)

Section NumFacts.
Import Str Num.
Open Scope N_scope.

(** Rounding to binary64 leaves the integers below [2^53] alone, and
    never produces one of them from a larger integer. *)
Lemma to_number_small (n k : N) :
  k < 2 ^ 53 -> to_number n = Finite k -> n = k.
Proof.
  intros Hk. unfold to_number.
  destruct (n <? 2 ^ 53) eqn:E; [congruence|].
  apply N.ltb_ge in E.
  set (e := N.log2 n - 52).
  set (q := N.shiftr n e).
  set (r := N.land n (N.ones e)).
  set (half := 2 ^ (e - 1)).
  set (q' := if (half <? r) || ((r =? half) && N.odd q) then q + 1 else q).
  destruct (N.shiftl q' e <? 2 ^ 1024); [|discriminate].
  intros H. injection H as H. exfalso.
  assert (Hl : 53 <= N.log2 n).
  { change 53 with (N.log2 (2 ^ 53)). now apply N.log2_le_mono. }
  assert (He : N.log2 n = 52 + e) by (unfold e; lia).
  assert (Hn : 2 ^ N.log2 n <= n).
  { apply N.log2_spec. assert (0 < 2 ^ 53) by reflexivity. lia. }
  assert (Hq : 2 ^ 52 <= q).
  { unfold q. rewrite N.shiftr_div_pow2.
    rewrite He, N.pow_add_r in Hn.
    apply N.div_le_lower_bound; [apply N.pow_nonzero; discriminate|].
    now rewrite N.mul_comm. }
  assert (Hq' : q <= q') by (unfold q'; destruct (_ || _); lia).
  assert (H2 : 2 <= 2 ^ e).
  { change 2 with (2 ^ 1) at 1. apply N.pow_le_mono_r; [discriminate|].
    unfold e. lia. }
  rewrite N.shiftl_mul_pow2 in H.
  assert (2 ^ 52 * 2 <= q' * 2 ^ e) by (apply N.mul_le_mono; lia).
  change (2 ^ 52 * 2) with (2 ^ 53) in *.
  rewrite H in *. now apply N.lt_nge in Hk.
Qed.

Lemma decimal_value_from_ge (acc : N) (s : string) :
  acc <= decimal_value_from acc s.
Proof.
  revert acc. induction s as [|c s IH]; intros acc; cbn [decimal_value_from]; [lia|].
  specialize (IH (10 * acc + digit_value c)). lia.
Qed.

Lemma is_digit_range (c : ascii) :
  is_digit c = true <-> 48 <= N_of_ascii c <= 57.
Proof.
  unfold is_digit. cbv zeta.
  rewrite andb_true_iff, !N.leb_le. tauto.
Qed.

(** A digit string without a leading zero that denotes a two-digit number
    is made of these two digits. *)
Lemma decimal_value_two_digits (s : string) (a b : ascii) :
  is_empty s = false -> all_digits s = true ->
  startsWith s "0" = false \/ s = "0"%string ->
  is_digit a = true -> is_digit b = true -> digit_value a <> 0 ->
  decimal_value s = 10 * digit_value a + digit_value b ->
  s = String a (String b EmptyString).
Proof.
  intros Hne Hd Hz Ha Hb Ha0 Hv.
  pose proof (proj1 (is_digit_range a) Ha) as Ra.
  pose proof (proj1 (is_digit_range b) Hb) as Rb.
  unfold digit_value in Ha0, Hv.
  destruct s as [|c1 s]; [discriminate|].
  simpl in Hd. apply andb_true_iff in Hd as [H1 Hd].
  pose proof (proj1 (is_digit_range c1) H1) as R1.
  unfold decimal_value in Hv. cbn [decimal_value_from] in Hv.
  unfold digit_value at 1 in Hv.
  destruct s as [|c2 s]; cbn [decimal_value_from] in Hv; [lia|].
  simpl in Hd. apply andb_true_iff in Hd as [H2 Hd].
  pose proof (proj1 (is_digit_range c2) H2) as R2.
  unfold digit_value at 1 in Hv.
  destruct s as [|c3 s]; cbn [decimal_value_from] in Hv.
  - assert (N_of_ascii c1 = N_of_ascii a) by lia.
    assert (N_of_ascii c2 = N_of_ascii b) by lia.
    rewrite <- (ascii_N_embedding c1), <- (ascii_N_embedding c2).
    rewrite <- (ascii_N_embedding a), <- (ascii_N_embedding b).
    congruence.
  - exfalso.
    assert (N_of_ascii c1 <> 48).
    { destruct Hz as [Hz|Hz]; [|discriminate Hz].
      simpl in Hz. rewrite andb_true_r in Hz.
      intros E. apply Ascii.eqb_neq in Hz. apply Hz.
      rewrite <- (ascii_N_embedding c1), E. reflexivity. }
    match type of Hv with
    | decimal_value_from ?x s = _ =>
        pose proof (decimal_value_from_ge x s) as Hge
    end.
    rewrite Hv in Hge. lia.
Qed.

End NumFacts.

(** ** Prefix test and majors rule on canonical version strings *)

Section CanonicalFacts.
Import Str Num Regex Validate.

Lemma to_number_exact (n : N) : (n < 2 ^ 53)%N -> to_number n = Finite n.
Proof.
  intros H. unfold to_number. now rewrite (proj2 (N.ltb_lt _ _) H).
Qed.

Lemma two_digits_small (a b : ascii) :
  is_digit a = true -> is_digit b = true ->
  (10 * digit_value a + digit_value b < 2 ^ 53)%N.
Proof.
  rewrite !is_digit_range. unfold digit_value. intros Ha Hb.
  apply N.le_lt_trans with 99%N; [lia | reflexivity].
Qed.

(** A canonical string is matched at its first character, and the first
    group is its major number. *)
Lemma canonical_parses (s : string) :
  canonical s ->
  exists v ma rest,
    getVersionNumber s = Some v /\ major v = parseInt ma /\
    s = ma ++ "." ++ rest /\ digit_group ma /\ no_leading_zero ma.
Proof.
  intros (ma & mi & pa & rest & -> & Hma & Hmi & Hpa & Hz).
  destruct (match_here_complete ma mi pa rest Hma Hmi Hpa) as (g & E & E1 & _).
  apply regex_match_here in E. unfold getVersionNumber. rewrite E.
  eexists. exists ma, (mi ++ "." ++ pa ++ rest).
  split; [reflexivity|]. simpl major. rewrite E1.
  split; [reflexivity|]. split; [reflexivity|]. now split.
Qed.

(** On a canonical string, "starts with the two digits [a b] and a dot"
    and "the parsed major is the number [a b]" are the same test. *)
Lemma canonical_prefix_major (s : string) (a b : ascii) :
  canonical s ->
  is_digit a = true -> is_digit b = true -> digit_value a <> 0%N ->
  (startsWith s (String a (String b ".")) = true <->
   exists v, getVersionNumber s = Some v /\
             major v = Finite (10 * digit_value a + digit_value b)).
Proof.
  intros Hc Ha Hb Ha0.
  destruct (canonical_parses s Hc) as (v & ma & rest & Hv & Hm & -> & [Hn Hd] & Hz).
  split.
  - intros H. exists v. split; [exact Hv|]. rewrite Hm.
    assert (E : ma = String a (String b EmptyString)).
    { destruct ma as [|c1 ma]; [discriminate|].
      cbn [startsWith append all_digits] in H, Hd. apply andb_true_iff in H as [H1 H].
      apply Ascii.eqb_eq in H1. subst c1.
      apply andb_true_iff in Hd as [_ Hd].
      destruct ma as [|c2 ma]; cbn [startsWith append all_digits] in H, Hd.
      { apply andb_true_iff in H as [H _]. apply Ascii.eqb_eq in H.
        subst b. discriminate Hb. }
      apply andb_true_iff in H as [H2 H], Hd as [_ Hd].
      apply Ascii.eqb_eq in H2. subst c2.
      destruct ma as [|c3 ma]; [reflexivity|]. cbn [startsWith append all_digits] in H, Hd.
      apply andb_true_iff in H as [H _], Hd as [H3 _].
      apply Ascii.eqb_eq in H. subst c3. discriminate H3. }
    subst ma. unfold parseInt, decimal_value. cbn [decimal_value_from].
    rewrite N.mul_0_r, N.add_0_l.
    apply to_number_exact. now apply two_digits_small.
  - intros (v' & Hv' & Hm'). rewrite Hv in Hv'. injection Hv' as <-.
    rewrite Hm in Hm'. unfold parseInt in Hm'.
    apply to_number_small in Hm'; [|now apply two_digits_small].
    apply (decimal_value_two_digits ma a b) in Hm'; try assumption.
    + subst ma. apply startsWith_iff. now exists rest.
    + destruct Hz; [now right | now left].
Qed.

Lemma canonical_agree (r d : string) :
  canonical r -> canonical d -> prefixes_19_17 r d = majors_19_17 r d.
Proof.
  intros Hr Hd. unfold prefixes_19_17, majors_19_17.
  pose proof (canonical_prefix_major r "1" "9" Hr eq_refl eq_refl) as Pr.
  pose proof (canonical_prefix_major d "1" "7" Hd eq_refl eq_refl) as Pd.
  destruct (canonical_parses r Hr) as (vr & _ & _ & Er & _).
  destruct (canonical_parses d Hd) as (vd & _ & _ & Ed & _).
  rewrite Er, Ed in *.
  assert (Ar : startsWith r "19." = Num.eqb (major vr) (Finite 19)).
  { apply eq_true_iff_eq. rewrite num_eqb_eq, Pr by discriminate. split.
    - intros (v & E & H). now injection E as <-.
    - intros H. now exists vr. }
  assert (Ad : startsWith d "17." = Num.eqb (major vd) (Finite 17)).
  { apply eq_true_iff_eq. rewrite num_eqb_eq, Pd by discriminate. split.
    - intros (v & E & H). now injection E as <-.
    - intros H. now exists vd. }
  now rewrite Ar, Ad.
Qed.

End CanonicalFacts.

(** ** The installed-package cross-check *)

Section InstalledCheck.
Import Eff Validate.

Lemma preamble_logs_only (rv dv : string) (m : message) :
  ~ In (Console Error m) (preamble rv dv).
Proof.
  unfold preamble. simpl. intros [H|[H|[H|[]]]]; discriminate H.
Qed.

Lemma check_mismatch_no_error (r d : version) (m : message) :
  ~ In (Console Error m) (trace (check_mismatch r d)).
Proof.
  unfold check_mismatch. destruct (negb _); [|intros []].
  rewrite warn_all_run. simpl. intros [H|[H|[H|[]]]]; discriminate H.
Qed.

Lemma classify_readable (e : env) (r d : string) :
  installed_react e = Metadata (Some r) ->
  installed_react_dom e = Metadata (Some d) ->
  classify e = if prefixes_19_17 r d then Conflict else Passed.
Proof. intros Hr Hd. unfold classify. now rewrite Hr, Hd. Qed.

(** C8, as the source has it.  When the declared versions pass and both
    metadata files are read with a [version] string, the script exits
    with code 1, printing the installed-packages message, if and only if
    the installed react string starts with "19." and the installed
    react-dom string starts with "17.".  On canonical version strings
    (MAJOR.MINOR.PATCH first, no leading zero) this prefix test and the
    19/17 majors rule of the declared versions give the same answer. *)
Theorem installed_check_is_prefix_test (e : env) (r d : string) :
  declared_ok e ->
  installed_react e = Metadata (Some r) ->
  installed_react_dom e = Metadata (Some d) ->
  (exit_code (validateReactVersions e) = 1%Z <-> prefixes_19_17 r d = true) /\
  (printed Error installed_error (validateReactVersions e) <->
   prefixes_19_17 r d = true) /\
  (canonical r -> canonical d -> prefixes_19_17 r d = majors_19_17 r d).
Proof.
  intros (rv & dv & vr & vd & Hm & Er & Ed & Hn) Hr Hd.
  rewrite (validate_run e rv dv vr vd Hm Er Ed Hn).
  rewrite (classify_readable e r d Hr Hd).
  rewrite (check_installed_readable e r d Hr Hd).
  unfold printed.
  assert (Hc : canonical r -> canonical d ->
               prefixes_19_17 r d = majors_19_17 r d)
    by apply canonical_agree.
  destruct (prefixes_19_17 r d); repeat split; try discriminate;
    try exact Hc; cbn [trace snd]; rewrite !in_app_iff.
  - intros _. right. right. simpl. tauto.
  - intros [H|[H|[H|H]]].
    + now apply preamble_logs_only in H.
    + now apply check_mismatch_no_error in H.
    + simpl in H. destruct H as [H|[H|[]]]; discriminate H.
    + unfold passed_line in H. simpl in H.
      destruct H as [H|[]]; discriminate H.
Qed.

Lemma installed_check_is_prefix_test_witness :
  exit_code
    (validateReactVersions
       (mkEnv (ManifestDeps (Some "^19.0.0") (Some "^19.0.0"))
              (Metadata (Some "19.1.0")) (Metadata (Some "17.0.2")))) = 1%Z.
Proof.
  apply (installed_check_is_prefix_test
           (mkEnv (ManifestDeps (Some "^19.0.0") (Some "^19.0.0"))
                  (Metadata (Some "19.1.0")) (Metadata (Some "17.0.2")))
           "19.1.0" "17.0.2").
  - exists "^19.0.0", "^19.0.0",
      (mkVersion (Num.Finite 19) (Num.Finite 0) (Num.Finite 0)),
      (mkVersion (Num.Finite 19) (Num.Finite 0) (Num.Finite 0)).
    repeat split. intros [_ H]. discriminate H.
  - reflexivity.
  - reflexivity.
  - reflexivity.
Defined.

(** C8, as the specification words it, fails in both directions.  With
    installed versions "^19.0.0" and "^17.0.2" the majors rule sees 19 and
    17, yet the script passes; with "19.x" and "17.x" the majors rule
    finds no version at all, yet the script exits with the
    installed-packages message. *)
Lemma installed_check_is_not_majors_rule :
  (majors_19_17 "^19.0.0" "^17.0.2" = true /\
   validateReactVersions
     (mkEnv (ManifestDeps (Some "18.2.0") (Some "18.2.0"))
            (Metadata (Some "^19.0.0")) (Metadata (Some "^17.0.2")))
   = (Returned tt,
      preamble "18.2.0" "18.2.0" ++
      [Console Log [Text "📦 Installed React: ^19.0.0"];
       Console Log [Text "📦 Installed ReactDOM: ^17.0.2"];
       passed_line])%list) /\
  (majors_19_17 "19.x" "17.x" = false /\
   validateReactVersions
     (mkEnv (ManifestDeps (Some "18.2.0") (Some "18.2.0"))
            (Metadata (Some "19.x")) (Metadata (Some "17.x")))
   = (Exited 1,
      preamble "18.2.0" "18.2.0" ++
      [Console Log [Text "📦 Installed React: 19.x"];
       Console Log [Text "📦 Installed ReactDOM: 17.x"]] ++
      map (fun l => Console Error [Text l]) installed_lines)%list).
Proof. repeat split. Qed.

(** C9, as the source has it.  Once the declared versions pass: if one
    of the two metadata files is absent, the check is skipped without
    logging anything (it prints no line at all: the confirmation follows
    the declared-version output directly) and the script exits with
    code 0; if both are present and one cannot be read or parsed, the
    check logs the soft warning and nothing else, the installed-packages
    message is not printed, and the script exits with code 0. *)
Theorem unreadable_metadata_is_soft
    (e : env) (rv dv : string) (vr vd : version) :
  manifest e = ManifestDeps (Some rv) (Some dv) ->
  getVersionNumber rv = Some vr -> getVersionNumber dv = Some vd ->
  ~ (major vr = Num.Finite 19 /\ major vd = Num.Finite 17) ->
  (installed_react e = Missing \/ installed_react_dom e = Missing ->
   check_installed e = (Returned tt, []) /\
   validateReactVersions e =
   (Returned tt,
    [ Console Log [Text "🔍 Validating React version compatibility..."];
      Console Log [Text ("📦 React version: " ++ rv)];
      Console Log [Text ("📦 ReactDOM version: " ++ dv)] ]
    ++ trace (check_mismatch vr vd)
    ++ [Console Log [Text "✅ React version compatibility check passed"]])%list /\
   exit_code (validateReactVersions e) = 0%Z /\
   ~ printed Log soft_warning (validateReactVersions e)) /\
  (installed_react e <> Missing -> installed_react_dom e <> Missing ->
   (exists m, installed_react e = Unreadable m) \/
   (exists m, installed_react_dom e = Unreadable m) ->
   check_installed e =
   (Returned tt,
    [Console Log
       [Text "⚠️  Could not check installed versions in node_modules"]]) /\
   validateReactVersions e =
   (Returned tt,
    [ Console Log [Text "🔍 Validating React version compatibility..."];
      Console Log [Text ("📦 React version: " ++ rv)];
      Console Log [Text ("📦 ReactDOM version: " ++ dv)] ]
    ++ trace (check_mismatch vr vd)
    ++ [Console Log
          [Text "⚠️  Could not check installed versions in node_modules"];
        Console Log [Text "✅ React version compatibility check passed"]])%list /\
   exit_code (validateReactVersions e) = 0%Z /\
   printed Log soft_warning (validateReactVersions e) /\
   ~ printed Error installed_error (validateReactVersions e)).
Proof.
  intros Hm Er Ed Hn.
  split.
  - intros Ha.
    assert (Hi : check_installed e = (Returned tt, [])).
    { apply check_installed_skipped.
      destruct Ha as [-> | ->]; [reflexivity|].
      now destruct (installed_react e). }
    assert (Hs : classify e = Skipped).
    { unfold classify. destruct Ha as [-> | ->]; [reflexivity|].
      now destruct (installed_react e) as [|?|[?|]]. }
    split; [exact Hi|].
    rewrite (validate_run_pass e rv dv vr vd Hm Er Ed Hn)
      by (rewrite Hs; discriminate).
    rewrite Hi. split; [reflexivity|]. split; [reflexivity|].
    unfold printed. cbn [trace snd].
    rewrite !in_app_iff.
    intros [H|[H|[H|H]]].
    + unfold soft_warning in H. simpl in H.
      destruct H as [H|[H|[H|[]]]]; discriminate H.
    + unfold check_mismatch in H. destruct (negb _); [|destruct H].
      rewrite warn_all_run in H. simpl in H.
      destruct H as [H|[H|[H|[]]]]; discriminate H.
    + destruct H.
    + unfold soft_warning, passed_line in H. simpl in H.
      destruct H as [H|[]]. discriminate H.
  - intros Hr Hd Hu.
    assert (Hi : check_installed e =
                 (Returned tt, [Console Log [Text soft_warning]])).
    { clear - Hr Hd Hu. destruct e as [f ir id].
      cbn [installed_react installed_react_dom] in *.
      unfold check_installed, check_installed_body, read_version,
        existsSync, console_log.
      cbn [installed_react installed_react_dom].
      destruct ir as [|mr|rv], id as [|md|dv];
        try contradiction; try reflexivity;
        try (destruct Hu as [[m Hu]|[m Hu]]; discriminate Hu). }
    assert (Hf : classify e = ReadFailed).
    { unfold classify.
      destruct (installed_react e) as [|mr|[r|]],
               (installed_react_dom e) as [|md|[d|]];
        try reflexivity; try contradiction;
        destruct Hu as [[m Hu]|[m Hu]]; discriminate Hu. }
    split; [exact Hi|].
    rewrite (validate_run_pass e rv dv vr vd Hm Er Ed Hn)
      by (rewrite Hf; discriminate).
    rewrite Hi. split; [reflexivity|]. split; [reflexivity|].
    unfold printed. cbn [trace snd].
    rewrite !in_app_iff. split.
    + right. right. left. simpl. now left.
    + intros [H|[H|[H|H]]].
      * now apply preamble_logs_only in H.
      * now apply check_mismatch_no_error in H.
      * simpl in H. destruct H as [H|[]]. discriminate H.
      * unfold passed_line in H. simpl in H.
        destruct H as [H|[]]. discriminate H.
Qed.

Lemma unreadable_metadata_is_soft_witness :
  exit_code
    (validateReactVersions
       (mkEnv (ManifestDeps (Some "18.2.0") (Some "18.2.0"))
              (Unreadable "Unexpected end of JSON input")
              (Metadata (Some "18.2.0")))) = 0%Z.
Proof.
  apply (unreadable_metadata_is_soft
           (mkEnv (ManifestDeps (Some "18.2.0") (Some "18.2.0"))
                  (Unreadable "Unexpected end of JSON input")
                  (Metadata (Some "18.2.0")))
           "18.2.0" "18.2.0"
           (mkVersion (Num.Finite 18) (Num.Finite 2) (Num.Finite 0))
           (mkVersion (Num.Finite 18) (Num.Finite 2) (Num.Finite 0))).
  - reflexivity.
  - reflexivity.
  - reflexivity.
  - intros [H _]. discriminate H.
  - discriminate.
  - discriminate.
  - left. now eexists.
Defined.

(** C9, as the specification words it, fails when the files are absent:
    the guard of line 74 skips the check, and no warning is logged. *)
Lemma absent_metadata_logs_nothing :
  validateReactVersions
    (mkEnv (ManifestDeps (Some "18.2.0") (Some "18.2.0")) Missing Missing)
  = (Returned tt, preamble "18.2.0" "18.2.0" ++ [passed_line])%list /\
  ~ printed Log soft_warning
      (validateReactVersions
         (mkEnv (ManifestDeps (Some "18.2.0") (Some "18.2.0"))
                Missing Missing)).
Proof.
  split; [reflexivity|].
  unfold printed. simpl. intros H.
  repeat (destruct H as [H|H]; [discriminate H|]). contradiction.
Qed.

End InstalledCheck.

(** ** The runtime smoke test *)

Section RuntimeFacts.
Import Eff Runtime.

(** The first disjunct of line 58 adds nothing: a body that contains
    [<div id="root">] contains [id="root"]. *)
Lemma has_root_is_root_id (data : string) :
  has_root data = Str.includes data root_id.
Proof.
  unfold has_root.
  destruct (Str.includes data root_div) eqn:E; [|reflexivity].
  symmetry. apply (includes_infix data "<div " root_id ">"). exact E.
Qed.

Lemma on_end_cases (data : string) :
  on_end data =
  if Str.includes data root_id
  then if has_error_signature data
       then (Thrown runtime_error, [structure_ok])
       else (Returned tt, [structure_ok])
  else (Thrown root_not_found, []).
Proof.
  unfold on_end. rewrite has_root_is_root_id.
  destruct (Str.includes data root_id); [|reflexivity].
  destruct (has_error_signature data); reflexivity.
Qed.

(** A run whose build directory exists, by the way [testPromise] is
    settled.  After a rejection the [catch] block calls [process.exit]:
    the process ends there, and the [finally] block of line 94 is never
    entered. *)
Lemma main_run (e : env) :
  build_exists e = true ->
  main e =
  match fst (testPromise e) with
  | Returned _ =>
      (Returned tt,
       startup ++ trace (testPromise e) ++
       [Console Log [Text "✅ Runtime compatibility test passed"]; Kill])%list
  | Thrown msg =>
      (Exited 1, startup ++ trace (testPromise e) ++ failure_lines msg)%list
  | Exited c => (Exited c, startup ++ trace (testPromise e))%list
  end.
Proof.
  intros Hb. unfold main, testRuntime. rewrite Hb. unfold trace.
  destruct (testPromise e) as [[[]|msg|c] t]; cbn;
    rewrite ?app_nil_r; try reflexivity.
  now rewrite <- app_assoc.
Qed.

Lemma testPromise_response (e : env) (body : string) :
  probe e = Response body ->
  testPromise e = (fst (on_end body), request :: snd (on_end body)).
Proof.
  intros Hp. unfold testPromise. rewrite Hp. apply bind_emit.
Qed.

(** [serve.kill()] runs exactly when the probe passes. *)
Lemma killed_iff_probe_passes (e : env) :
  build_exists e = true ->
  (killed (main e) = true <-> fst (testPromise e) = Returned tt).
Proof.
  intros Hb. rewrite (main_run e Hb). unfold killed, trace.
  assert (Hk : existsb is_kill (snd (testPromise e)) = false).
  { unfold testPromise. rewrite bind_emit. cbn [snd existsb is_kill orb].
    destruct (probe e) as [body| |]; try reflexivity.
    rewrite on_end_cases.
    destruct (Str.includes body root_id); [|reflexivity].
    destruct (has_error_signature body); reflexivity. }
  destruct (testPromise e) as [[[]|msg|c] t]; cbn [fst snd] in *;
    rewrite !existsb_app, Hk; cbn; split; congruence.
Qed.

End RuntimeFacts.

Section RuntimeClaims.
Import Eff Runtime.

(** C4.  When the build directory does not exist, the script prints the
    build-directory error and calls [process.exit(1)]; the run ends there
    and contains no [spawn]. *)
Theorem missing_build_never_spawns (e : env) :
  build_exists e = false ->
  main e =
  (Exited 1,
   [Console Log [Text "🔍 Testing runtime compatibility..."];
    Console Error
      [Text "❌ Build directory not found. Run yarn build:only first."]])
  /\ exit_code (main e) = 1%Z
  /\ spawned (main e) = false.
Proof.
  intros Hb. unfold spawned, exit_code, main, testRuntime. rewrite Hb.
  repeat split.
Qed.

Lemma missing_build_never_spawns_witness :
  spawned (main (mkEnv false (Response "<div id='root'></div>"))) = false.
Proof.
  apply (missing_build_never_spawns
           (mkEnv false (Response "<div id='root'></div>"))).
  reflexivity.
Defined.

(** C10.  A response body without [id="root"] is rejected with "React app
    root element not found", whatever error signatures it contains: the
    script prints that failure and exits with code 1, and the
    runtime-error message is not printed.  The runtime-error rejection is
    only ever produced for a body that has the root marker. *)
Theorem missing_root_is_reported_first (e : env) (body : string) :
  build_exists e = true ->
  probe e = Response body ->
  Str.includes body root_id = false ->
  on_end body = (Thrown root_not_found, []) /\
  main e = (Exited 1, startup ++ [request] ++ failure_lines root_not_found)%list /\
  exit_code (main e) = 1%Z /\
  ~ printed Error ("❌ Runtime test failed: " ++ runtime_error) (main e) /\
  (forall data, fst (on_end data) = Thrown runtime_error ->
                Str.includes data root_id = true).
Proof.
  intros Hb Hp Hr.
  assert (Ho : on_end body = (Thrown root_not_found, []))
    by (now rewrite on_end_cases, Hr).
  assert (Hm : main e = (Exited 1, startup ++ [request]
                                     ++ failure_lines root_not_found)%list).
  { rewrite (main_run e Hb), (testPromise_response e body Hp), Ho.
    reflexivity. }
  split; [exact Ho|]. split; [exact Hm|]. rewrite Hm.
  split; [reflexivity|]. split.
  - unfold printed. simpl. intros H.
    repeat (destruct H as [H|H]; [discriminate H|]). contradiction.
  - intros data. rewrite on_end_cases.
    destruct (Str.includes data root_id); [reflexivity|].
    discriminate.
Qed.

Lemma missing_root_is_reported_first_witness :
  exit_code
    (main (mkEnv true (Response "<html><body>TypeError</body></html>")))
  = 1%Z.
Proof.
  apply (missing_root_is_reported_first
           (mkEnv true (Response "<html><body>TypeError</body></html>"))
           "<html><body>TypeError</body></html>");
    reflexivity.
Defined.

(** C3, as the source has it.  When the served body contains
    [id="root"] and the substring "TypeError", the script prints "Runtime
    test failed: React runtime error detected in HTML output" and exits
    with code 1. *)
Theorem type_error_in_rooted_body (e : env) (body : string) :
  build_exists e = true ->
  probe e = Response body ->
  Str.includes body root_id = true ->
  Str.includes body "TypeError" = true ->
  exit_code (main e) = 1%Z /\
  printed Error ("❌ Runtime test failed: " ++ runtime_error) (main e).
Proof.
  intros Hb Hp Hr Ht.
  assert (Hs : has_error_signature body = true).
  { unfold has_error_signature. rewrite Ht. now rewrite !orb_true_r. }
  rewrite (main_run e Hb), (testPromise_response e body Hp).
  rewrite on_end_cases, Hr, Hs. split; [reflexivity|].
  unfold printed. simpl. tauto.
Qed.

Lemma type_error_in_rooted_body_witness :
  exit_code
    (main (mkEnv true
             (Response ("<div id=" ++ dquote ++ "root" ++ dquote
                        ++ ">TypeError: x is undefined</div>"))))
  = 1%Z.
Proof.
  apply (type_error_in_rooted_body
           (mkEnv true
              (Response ("<div id=" ++ dquote ++ "root" ++ dquote
                         ++ ">TypeError: x is undefined</div>")))
           ("<div id=" ++ dquote ++ "root" ++ dquote
            ++ ">TypeError: x is undefined</div>"));
    reflexivity.
Defined.

(** C3, as the specification words it, fails on a body that contains
    "TypeError" but no [id="root"]: the script reports the missing root
    element, and the runtime-error message is not printed. *)
Lemma type_error_without_root :
  Str.includes "<pre>TypeError: x is undefined</pre>" "TypeError" = true /\
  main (mkEnv true (Response "<pre>TypeError: x is undefined</pre>"))
  = (Exited 1,
     startup ++ [request] ++ failure_lines root_not_found)%list /\
  ~ printed Error ("❌ Runtime test failed: " ++ runtime_error)
      (main (mkEnv true (Response "<pre>TypeError: x is undefined</pre>"))).
Proof.
  split; [reflexivity|]. split; [reflexivity|].
  unfold printed. simpl. intros H.
  repeat (destruct H as [H|H]; [discriminate H|]). contradiction.
Qed.

(** C2 at a failing input.  The build directory exists and the served
    page has no root marker: the server is spawned, the probe is
    rejected, the [catch] block prints the failure and calls
    [process.exit(1)], and [serve.kill()] is never executed. *)
Theorem rejected_probe_skips_kill :
  main (mkEnv true (Response "<html><body></body></html>"))
  = (Exited 1, startup ++ [request] ++ failure_lines root_not_found)%list /\
  spawned (main (mkEnv true (Response "<html><body></body></html>"))) = true /\
  killed (main (mkEnv true (Response "<html><body></body></html>"))) = false.
Proof. repeat split. Qed.

(** The other exit paths do reach the [finally] block: after a passing
    probe the last action of the run is [serve.kill()]. *)
Lemma passing_probe_kills (e : env) (body : string) :
  build_exists e = true ->
  probe e = Response body ->
  Str.includes body root_id = true ->
  has_error_signature body = false ->
  main e =
  (Returned tt,
   startup ++
   [request; structure_ok;
    Console Log [Text "✅ Runtime compatibility test passed"]; Kill])%list.
Proof.
  intros Hb Hp Hr Hs.
  rewrite (main_run e Hb), (testPromise_response e body Hp).
  now rewrite on_end_cases, Hr, Hs.
Qed.

(** No rejected probe is followed by [serve.kill()]. *)
Lemma rejected_probe_never_kills (e : env) (msg : string) :
  build_exists e = true ->
  fst (testPromise e) = Thrown msg ->
  killed (main e) = false /\ spawned (main e) = true /\
  exit_code (main e) = 1%Z.
Proof.
  intros Hb Ht. split.
  - destruct (killed (main e)) eqn:K; [|reflexivity].
    apply (killed_iff_probe_passes e Hb) in K. congruence.
  - rewrite (main_run e Hb), Ht. split; reflexivity.
Qed.

End RuntimeClaims.

(** * Further properties of the validator *)

Section ValidateMore.
Import Eff Validate.

Ltac absurd_in H :=
  simpl in H; repeat (destruct H as [H|H]; [discriminate H|]);
  try contradiction.

Lemma validate_manifest_throws (e : env) (msg : string) :
  manifest e = ManifestThrows msg ->
  validateReactVersions e = (Exited 1, [validating_line; failed_line msg]).
Proof.
  intros Hm. unfold validateReactVersions, validate_body, read_manifest.
  now rewrite Hm.
Qed.

Lemma validate_not_found (e : env) (r d : option string) :
  manifest e = ManifestDeps r d ->
  falsy r || falsy d = true ->
  validateReactVersions e =
  (Exited 1, [validating_line; failed_line not_found_message]).
Proof.
  intros Hm Hf. unfold validateReactVersions, validate_body, read_manifest.
  rewrite Hm, bind_ret_l. cbv beta zeta. unfold fst, snd.
  now rewrite Hf.
Qed.

Lemma falsy_false (v : option string) :
  falsy v = false -> exists s, v = Some s /\ Str.is_empty s = false.
Proof.
  destruct v as [s|]; [|discriminate]. intros H. now exists s.
Qed.

Lemma passed_not_in_preamble (rv dv : string) :
  ~ In passed_line (preamble rv dv).
Proof. unfold passed_line, preamble. intros H. absurd_in H. Qed.

Lemma passed_not_in_mismatch (r d : version) :
  ~ In passed_line (trace (check_mismatch r d)).
Proof.
  unfold check_mismatch, passed_line. destruct (negb _); [|intros []].
  rewrite warn_all_run. intros H. absurd_in H.
Qed.

(** Every run of the validator ends in one of two ways. *)
Lemma validate_outcome (e : env) :
  (declared_ok e /\ classify e <> Conflict /\
   fst (validateReactVersions e) = Returned tt /\
   In passed_line (trace (validateReactVersions e)))
  \/
  ((~ declared_ok e \/ classify e = Conflict) /\
   fst (validateReactVersions e) = Exited 1 /\
   ~ In passed_line (trace (validateReactVersions e))).
Proof.
  destruct (manifest e) as [msg|r d] eqn:Hm.
  { right. rewrite (validate_manifest_throws e msg Hm). repeat split.
    - left. intros (rv & dv & vr & vd & H & _). congruence.
    - unfold passed_line. intros H. absurd_in H. }
  destruct (falsy r || falsy d) eqn:Hf.
  { right. rewrite (validate_not_found e r d Hm Hf). repeat split.
    - left. intros (rv & dv & vr & vd & H & Hr & Hd & _).
      rewrite Hm in H. injection H as -> ->. simpl in Hf.
      rewrite (getVersionNumber_nonempty _ _ Hr) in Hf.
      rewrite (getVersionNumber_nonempty _ _ Hd) in Hf. discriminate.
    - unfold passed_line. intros H. absurd_in H. }
  apply orb_false_iff in Hf as [Hr Hd].
  apply falsy_false in Hr as (rv & -> & Nr), Hd as (dv & -> & Nd).
  destruct (getVersionNumber rv) as [vr|] eqn:Er.
  2:{ right. rewrite (validate_unparsed e rv dv Hm (or_introl Er)).
      rewrite Nr, Nd. cbn [orb]. repeat split.
      - left. intros (rv' & dv' & vr & vd & H & Hr & _).
        rewrite Hm in H. injection H as <- <-. congruence.
      - cbn [trace snd]. rewrite in_app_iff. intros [H|H].
        + now apply passed_not_in_preamble in H.
        + unfold passed_line in H. absurd_in H. }
  destruct (getVersionNumber dv) as [vd|] eqn:Ed.
  2:{ right. rewrite (validate_unparsed e rv dv Hm (or_intror Ed)).
      rewrite Nr, Nd. cbn [orb]. repeat split.
      - left. intros (rv' & dv' & vr' & vd & H & _ & Hd & _).
        rewrite Hm in H. injection H as <- <-. congruence.
      - cbn [trace snd]. rewrite in_app_iff. intros [H|H].
        + now apply passed_not_in_preamble in H.
        + unfold passed_line in H. absurd_in H. }
  destruct (Num.eqb (major vr) (Num.Finite 19)
            && Num.eqb (major vd) (Num.Finite 17)) eqn:Ec.
  { right. apply andb_true_iff in Ec as [E19 E17].
    apply num_eqb_eq in E19, E17.
    rewrite (validate_critical e rv dv vr vd Hm Er Ed E19 E17).
    repeat split.
    - left. intros (rv' & dv' & vr' & vd' & H & Hr & Hd & Hn).
      rewrite Hm in H. injection H as <- <-.
      rewrite Er in Hr. rewrite Ed in Hd. injection Hr as <-.
      injection Hd as <-. now apply Hn.
    - cbn [trace snd]. rewrite in_app_iff. intros [H|H].
      + now apply passed_not_in_preamble in H.
      + unfold passed_line in H. absurd_in H. }
  assert (Hn : ~ (major vr = Num.Finite 19 /\ major vd = Num.Finite 17)).
  { intros [E19 E17]. apply num_eqb_eq in E19, E17.
    rewrite E19, E17 in Ec. discriminate. }
  assert (Hok : declared_ok e) by (now exists rv, dv, vr, vd).
  rewrite (validate_run e rv dv vr vd Hm Er Ed Hn).
  destruct (classify e) eqn:Hc;
    try (left; repeat split; try assumption; try discriminate;
         cbn [trace snd]; rewrite !in_app_iff; simpl; tauto).
  right. repeat split; [now right|].
  cbn [trace snd]. rewrite !in_app_iff. intros [H|[H|H]].
  - now apply passed_not_in_preamble in H.
  - now apply passed_not_in_mismatch in H.
  - now apply check_installed_no_pass in H.
Qed.

(** X1.  When [package.json] cannot be read or is not valid JSON, the
    script prints, after its opening line, the validation-failed line
    with the message of the error, and exits with code 1; no version is
    printed, no warning, no confirmation. *)
Theorem unreadable_manifest_exits_1 (e : env) (msg : string) :
  manifest e = ManifestThrows msg ->
  validateReactVersions e =
  (Exited 1,
   [ Console Log [Text "🔍 Validating React version compatibility..."];
     Console Error [Text ("❌ React version validation failed: " ++ msg)] ]) /\
  exit_code (validateReactVersions e) = 1%Z.
Proof.
  intros Hm. rewrite (validate_manifest_throws e msg Hm). now split.
Qed.

Lemma unreadable_manifest_exits_1_witness :
  exit_code
    (validateReactVersions
       (mkEnv (ManifestThrows "ENOENT: no such file or directory")
              Missing Missing)) = 1%Z.
Proof.
  apply (unreadable_manifest_exits_1
           (mkEnv (ManifestThrows "ENOENT: no such file or directory")
                  Missing Missing)
           "ENOENT: no such file or directory").
  reflexivity.
Defined.

(** X2.  When the [react] or the [react-dom] entry of the dependencies
    is absent or is the empty string, the script fails with "React or
    ReactDOM not found in dependencies" and exits with code 1, before
    printing any version. *)
Theorem missing_dependency_exits_1 (e : env) (r d : option string) :
  manifest e = ManifestDeps r d ->
  r = None \/ r = Some EmptyString \/ d = None \/ d = Some EmptyString ->
  validateReactVersions e =
  (Exited 1, [validating_line; failed_line not_found_message]) /\
  exit_code (validateReactVersions e) = 1%Z.
Proof.
  intros Hm H.
  assert (Hf : falsy r || falsy d = true).
  { destruct H as [-> | [-> | [-> | ->]]]; simpl;
      rewrite ?orb_true_r; reflexivity. }
  rewrite (validate_not_found e r d Hm Hf). now split.
Qed.

Lemma missing_dependency_exits_1_witness :
  exit_code
    (validateReactVersions
       (mkEnv (ManifestDeps (Some "19.0.0") None) Missing Missing)) = 1%Z.
Proof.
  apply (missing_dependency_exits_1
           (mkEnv (ManifestDeps (Some "19.0.0") None) Missing Missing)
           (Some "19.0.0") None).
  - reflexivity.
  - right. right. now left.
Defined.

(** X3.  No run of the validator ends with an uncaught exception, and
    its exit code is always 0 or 1: every [throw] is caught at line 95 or
    line 89, and every other way out is a return or [process.exit(1)]. *)
Theorem validator_never_throws (e : env) :
  (forall m, fst (validateReactVersions e) <> Thrown m) /\
  (exit_code (validateReactVersions e) = 0%Z \/
   exit_code (validateReactVersions e) = 1%Z).
Proof.
  unfold exit_code.
  destruct (validate_outcome e) as [(_ & _ & H & _) | (_ & H & _)];
    rewrite H; split; try discriminate; tauto.
Qed.

(** X4.  The validator exits with code 0 exactly when both declared
    strings parse, their majors are not the 19/17 pair, and the
    installed-package check does not find its 19/17 prefixes; and the
    confirmation line of line 93 is printed in exactly those runs. *)
Theorem validator_passes_iff (e : env) :
  (exit_code (validateReactVersions e) = 0%Z <->
   declared_ok e /\ classify e <> Conflict) /\
  (In passed_line (trace (validateReactVersions e)) <->
   exit_code (validateReactVersions e) = 0%Z).
Proof.
  unfold exit_code.
  destruct (validate_outcome e) as [(Hd & Hc & H & Hp) | (Hn & H & Hp)];
    rewrite H; repeat split; try tauto; try discriminate.
Qed.

(** X5.  [getVersionNumber] returns a version exactly for the strings
    that contain three non-empty digit groups separated by dots. *)
Theorem parse_succeeds_iff_triple (s : string) :
  (exists v, getVersionNumber s = Some v) <-> Regex.has_triple s.
Proof.
  unfold getVersionNumber. split.
  - intros [v H]. destruct (Regex.regex_match s) as [g|] eqn:E;
      [|discriminate]. now apply regex_match_sound with g.
  - intros H. apply regex_match_complete in H as [g ->]. now eexists.
Qed.

Lemma match_here_exact (ma mi pa rest : string) :
  Regex.digit_group ma -> Regex.digit_group mi -> Regex.digit_group pa ->
  (forall c r, rest = String c r -> Str.is_digit c = false) ->
  Regex.match_here (ma ++ "." ++ mi ++ "." ++ pa ++ rest)
  = Some (Regex.mkGroups ma mi pa).
Proof.
  intros [N1 A1] [N2 A2] [N3 A3] Hrest. unfold Regex.match_here.
  rewrite (span_digits_run ma); [|assumption|].
  2:{ intros c r' H. simpl in H. now injection H as <- _. }
  rewrite N1. simpl.
  rewrite (span_digits_run mi); [|assumption|].
  2:{ intros c r' H. simpl in H. now injection H as <- _. }
  rewrite N2.
  rewrite (span_digits_run pa rest A3 Hrest). now rewrite N3.
Qed.

Lemma regex_match_skip (pre s : string) :
  Str.no_digit pre = true ->
  Regex.regex_match (pre ++ s) = Regex.regex_match s.
Proof.
  induction pre as [|c pre IH]; [reflexivity|].
  simpl. intros H. apply andb_true_iff in H as [Hc Hp].
  apply negb_true_iff in Hc.
  unfold Regex.match_here at 1. cbn [Str.span_digits]. rewrite Hc.
  cbn [Str.is_empty]. now apply IH.
Qed.

(** X6.  What precedes the version is skipped as long as it has no
    digit, and what follows it is ignored as long as it does not start
    with a digit: [getVersionNumber] then returns the numbers of the
    three groups.  So range prefixes and pre-release suffixes are
    tolerated. *)
Theorem getVersionNumber_reads_triple (pre ma mi pa rest : string) :
  Str.no_digit pre = true ->
  Regex.digit_group ma -> Regex.digit_group mi -> Regex.digit_group pa ->
  (forall c r, rest = String c r -> Str.is_digit c = false) ->
  getVersionNumber (pre ++ ma ++ "." ++ mi ++ "." ++ pa ++ rest)
  = Some (mkVersion (Num.parseInt ma) (Num.parseInt mi) (Num.parseInt pa)).
Proof.
  intros Hpre H1 H2 H3 Hrest. unfold getVersionNumber.
  rewrite (regex_match_skip pre _ Hpre).
  now rewrite (regex_match_here _ _ (match_here_exact ma mi pa rest H1 H2 H3 Hrest)).
Qed.

Lemma getVersionNumber_reads_triple_witness :
  getVersionNumber ">=19.2.0-rc.1"
  = Some (mkVersion (Num.Finite 19) (Num.Finite 2) (Num.Finite 0)).
Proof.
  apply (getVersionNumber_reads_triple ">=" "19" "2" "0" "-rc.1");
    try reflexivity; try (split; reflexivity).
  intros c r H. now injection H as <- _.
Defined.

Lemma parseInt_small (g : string) (k : N) :
  (k < 2 ^ 53)%N ->
  Num.parseInt g = Num.Finite k <-> Num.decimal_value g = k.
Proof.
  intros Hk. unfold Num.parseInt. split.
  - now apply to_number_small.
  - intros ->. now apply to_number_exact.
Qed.

(** X7.  The CRITICAL diagnostic is printed exactly when the first digit
    group of the leftmost triple of the react string denotes 19 and that
    of the react-dom string denotes 17 (leading zeros allowed).  The
    rounding of [parseInt] to a double never makes another major pass
    for 19 or 17. *)
Theorem critical_rule_is_exact
    (e : env) (rv dv : string) (gr gd : Regex.groups) :
  manifest e = ManifestDeps (Some rv) (Some dv) ->
  Regex.regex_match rv = Some gr -> Regex.regex_match dv = Some gd ->
  printed Error critical_headline (validateReactVersions e) <->
  Num.decimal_value (Regex.g1 gr) = 19%N /\
  Num.decimal_value (Regex.g1 gd) = 17%N.
Proof.
  intros Hm Gr Gd.
  assert (Er : getVersionNumber rv =
               Some (mkVersion (Num.parseInt (Regex.g1 gr))
                               (Num.parseInt (Regex.g2 gr))
                               (Num.parseInt (Regex.g3 gr))))
    by (unfold getVersionNumber; now rewrite Gr).
  assert (Ed : getVersionNumber dv =
               Some (mkVersion (Num.parseInt (Regex.g1 gd))
                               (Num.parseInt (Regex.g2 gd))
                               (Num.parseInt (Regex.g3 gd))))
    by (unfold getVersionNumber; now rewrite Gd).
  rewrite <- (parseInt_small (Regex.g1 gr) 19) by reflexivity.
  rewrite <- (parseInt_small (Regex.g1 gd) 17) by reflexivity.
  unfold printed.
  destruct (Num.eqb (Num.parseInt (Regex.g1 gr)) (Num.Finite 19)
            && Num.eqb (Num.parseInt (Regex.g1 gd)) (Num.Finite 17)) eqn:Ec.
  - apply andb_true_iff in Ec as [E19 E17]. apply num_eqb_eq in E19, E17.
    rewrite (validate_critical e rv dv _ _ Hm Er Ed E19 E17).
    split; [tauto|]. intros _. cbn [trace snd]. rewrite in_app_iff.
    right. simpl. now left.
  - assert (Hn : ~ (Num.parseInt (Regex.g1 gr) = Num.Finite 19 /\
                    Num.parseInt (Regex.g1 gd) = Num.Finite 17)).
    { intros [E19 E17]. apply num_eqb_eq in E19, E17.
      rewrite E19, E17 in Ec. discriminate. }
    split; [|tauto]. intros H. exfalso.
    rewrite (validate_run e rv dv _ _ Hm Er Ed Hn) in H.
    assert (Hi : ~ In (Console Error [Text critical_headline])
                   (trace (check_installed e))).
    { intros Hi. apply check_installed_error_lines in Hi.
      absurd_in Hi. }
    destruct (classify e); cbn [trace snd] in H; rewrite !in_app_iff in H;
      destruct H as [H|[H|H]];
      try (now apply preamble_logs_only in H);
      try (now apply check_mismatch_no_error in H);
      try (destruct H as [H|H]); try contradiction;
      unfold passed_line in H; absurd_in H.
Qed.

Lemma critical_rule_is_exact_witness :
  printed Error critical_headline
    (validateReactVersions
       (mkEnv (ManifestDeps (Some "019.0.0") (Some "~17.0.2"))
              Missing Missing)).
Proof.
  apply (critical_rule_is_exact
           (mkEnv (ManifestDeps (Some "019.0.0") (Some "~17.0.2"))
                  Missing Missing)
           "019.0.0" "~17.0.2"
           (Regex.mkGroups "019" "0" "0") (Regex.mkGroups "17" "0" "2"));
    try reflexivity.
  split; reflexivity.
Defined.

Lemma not_conflict_of_returned (e : env) :
  fst (check_installed e) = Returned tt -> classify e <> Conflict.
Proof.
  rewrite check_installed_result. intros H Hc. rewrite Hc in H.
  discriminate.
Qed.

(** X8.  The test of line 82 stops at its first operand: when the
    installed react version does not start with "19.", the react-dom
    version is printed but never examined, so even a react-dom metadata
    file without a [version] passes without the soft warning. *)
Theorem react_dom_version_unread_unless_19
    (e : env) (r : string) (dv : option string) :
  declared_ok e ->
  installed_react e = Metadata (Some r) ->
  installed_react_dom e = Metadata dv ->
  Str.startsWith r "19." = false ->
  exit_code (validateReactVersions e) = 0%Z /\
  In (installed_log "📦 Installed ReactDOM: " dv)
     (trace (validateReactVersions e)) /\
  ~ printed Log soft_warning (validateReactVersions e).
Proof.
  intros (rv & dvs & vr & vd & Hm & Er & Ed & Hn) Hr Hd Hs.
  pose proof (check_installed_not_19 e r dv Hr Hd Hs) as Hi.
  assert (Hc : classify e <> Conflict)
    by (apply not_conflict_of_returned; now rewrite Hi).
  rewrite (validate_run_pass e rv dvs vr vd Hm Er Ed Hn Hc), Hi.
  split; [reflexivity|]. unfold printed. cbn [trace snd].
  rewrite !in_app_iff. split.
  - right. right. left. simpl. tauto.
  - intros [H|[H|[H|H]]].
    + unfold soft_warning in H. absurd_in H.
    + unfold check_mismatch in H. destruct (negb _); [|destruct H].
      rewrite warn_all_run in H. absurd_in H.
    + unfold soft_warning, installed_log in H. absurd_in H.
    + unfold soft_warning, passed_line in H. absurd_in H.
Qed.

Lemma react_dom_version_unread_unless_19_witness :
  exit_code
    (validateReactVersions
       (mkEnv (ManifestDeps (Some "18.2.0") (Some "18.2.0"))
              (Metadata (Some "18.2.0")) (Metadata None))) = 0%Z.
Proof.
  apply (react_dom_version_unread_unless_19
           (mkEnv (ManifestDeps (Some "18.2.0") (Some "18.2.0"))
                  (Metadata (Some "18.2.0")) (Metadata None))
           "18.2.0" None); try reflexivity.
  exists "18.2.0", "18.2.0",
    (mkVersion (Num.Finite 18) (Num.Finite 2) (Num.Finite 0)),
    (mkVersion (Num.Finite 18) (Num.Finite 2) (Num.Finite 0)).
  repeat split. intros [H _]. discriminate H.
Defined.

(** X9.  A metadata file without a [version] field is a soft failure
    when the test of line 82 reaches it (always for react; for react-dom
    only when the installed react starts with "19."): "undefined" is
    printed as the installed version, the [TypeError] of [startsWith] is
    caught at line 89, the soft warning is logged and the script exits
    with code 0. *)
Theorem missing_installed_version_is_soft
    (e : env) (rv dv : option string) :
  declared_ok e ->
  installed_react e = Metadata rv ->
  installed_react_dom e = Metadata dv ->
  rv = None \/
  (exists r, rv = Some r /\ Str.startsWith r "19." = true /\ dv = None) ->
  exit_code (validateReactVersions e) = 0%Z /\
  printed Log soft_warning (validateReactVersions e) /\
  (printed Log "📦 Installed React: undefined" (validateReactVersions e) \/
   printed Log "📦 Installed ReactDOM: undefined" (validateReactVersions e)).
Proof.
  intros (rs & ds & vr & vd & Hm & Er & Ed & Hn) Hr Hd H.
  pose proof (check_installed_no_version e rv dv Hr Hd H) as Hi.
  assert (Hc : classify e <> Conflict)
    by (apply not_conflict_of_returned; now rewrite Hi).
  rewrite (validate_run_pass e rs ds vr vd Hm Er Ed Hn Hc), Hi.
  split; [reflexivity|]. unfold printed. cbn [trace snd].
  rewrite !in_app_iff. split.
  - right. right. left. simpl. tauto.
  - destruct H as [-> | (r & -> & _ & ->)].
    + left. right. right. left. simpl. tauto.
    + right. right. right. left. simpl. tauto.
Qed.

Lemma missing_installed_version_is_soft_witness :
  exit_code
    (validateReactVersions
       (mkEnv (ManifestDeps (Some "19.0.0") (Some "19.0.0"))
              (Metadata (Some "19.0.0")) (Metadata None))) = 0%Z.
Proof.
  apply (missing_installed_version_is_soft
           (mkEnv (ManifestDeps (Some "19.0.0") (Some "19.0.0"))
                  (Metadata (Some "19.0.0")) (Metadata None))
           (Some "19.0.0") None); try reflexivity.
  - exists "19.0.0", "19.0.0",
      (mkVersion (Num.Finite 19) (Num.Finite 0) (Num.Finite 0)),
      (mkVersion (Num.Finite 19) (Num.Finite 0) (Num.Finite 0)).
    repeat split. intros [_ H]. discriminate H.
  - right. exists "19.0.0". repeat split.
Defined.



End ValidateMore.

(** * Further properties of the runtime smoke test *)

Section RuntimeMore.
Import Eff Runtime.

Lemma main_no_build (e : env) :
  build_exists e = false ->
  main e =
  (Exited 1,
   [Console Log [Text "🔍 Testing runtime compatibility..."];
    Console Error
      [Text "❌ Build directory not found. Run yarn build:only first."]]).
Proof.
  intros Hb. unfold main, testRuntime. now rewrite Hb.
Qed.

(** The probe is one request followed by what the [end] listener prints;
    it settles as a return or a throw. *)
Lemma testPromise_shape (e : env) :
  exists t,
    snd (testPromise e) = request :: t /\
    (t = [] \/ t = [structure_ok]) /\
    (forall c, fst (testPromise e) <> Exited c) /\
    (fst (testPromise e) = Returned tt <-> probe_passes e).
Proof.
  unfold testPromise, probe_passes. rewrite bind_emit. cbn [fst snd].
  destruct (probe e) as [body|msg|].
  - rewrite on_end_cases.
    destruct (Str.includes body root_id) eqn:Hr;
      [destruct (has_error_signature body) eqn:Hs|]; cbn [fst snd].
    + exists [structure_ok]. repeat split; try tauto; try discriminate.
      intros (b & H & _ & Hs'). congruence.
    + exists [structure_ok]. repeat split; try tauto; try discriminate.
      now exists body.
    + exists []. repeat split; try tauto; try discriminate.
      intros (b & H & Hr' & _). congruence.
  - exists []. repeat split; try tauto; try discriminate.
    intros (b & H & _). discriminate H.
  - exists []. repeat split; try tauto; try discriminate.
    intros (b & H & _). discriminate H.
Qed.


Lemma has_error_signature_existsb (data : string) :
  has_error_signature data = existsb (Str.includes data) error_signatures.
Proof.
  unfold has_error_signature, error_signatures. simpl.
  now rewrite orb_false_r, !orb_assoc.
Qed.

(** A run that gets past the build-directory test is the start-up, the
    request, and a rest without a second spawn or request. *)
Lemma main_trace_shape (e : env) :
  build_exists e = true ->
  exists rest,
    trace (main e) = (startup ++ request :: rest)%list /\
    existsb is_spawn rest = false /\
    existsb is_request rest = false.
Proof.
  intros Hb. rewrite (main_run e Hb).
  destruct (testPromise_shape e) as (t & Ht & Hs & _ & _).
  change (trace (testPromise e)) with (snd (testPromise e)). rewrite Ht.
  destruct Hs as [-> | ->];
    destruct (fst (testPromise e)) as [[]|msg|c]; cbn [trace snd];
    eexists; (split; [reflexivity|]); split; reflexivity.
Qed.

(** The element of a list that satisfies [p], when there is only one, is
    found at one place. *)
Lemma split_at_unique {A : Type} (p : A -> bool)
    (a b t1 t2 : list A) (x y : A) :
  existsb p a = false -> existsb p b = false -> p y = true ->
  (a ++ x :: b)%list = (t1 ++ y :: t2)%list ->
  t1 = a /\ y = x /\ t2 = b.
Proof.
  intros Ha Hb Hy. revert t1.
  induction a as [|a0 a IH]; intros [|z t1] H; simpl in *.
  - injection H as -> ->. repeat split.
  - injection H as _ H. rewrite H, existsb_app in Hb. simpl in Hb.
    rewrite Hy, orb_true_r in Hb. discriminate.
  - injection H as -> _. apply orb_false_iff in Ha as [Ha _]. congruence.
  - injection H as -> H. apply orb_false_iff in Ha as [_ Ha].
    destruct (IH Ha t1 H) as (-> & -> & ->). repeat split.
Qed.

Lemma passed_only_if_returned (e : env) :
  build_exists e = true ->
  In passed_line (trace (main e)) -> fst (testPromise e) = Returned tt.
Proof.
  intros Hb. rewrite (main_run e Hb).
  destruct (testPromise_shape e) as (t & Ht & Hs & Hx & _).
  change (trace (testPromise e)) with (snd (testPromise e)). rewrite Ht.
  destruct (fst (testPromise e)) as [[]|msg|c]; [reflexivity| |now elim (Hx c)].
  cbn [trace snd]. unfold passed_line. intros H. exfalso.
  destruct Hs as [-> | ->]; simpl in H;
    repeat (destruct H as [H|H]; [discriminate H|]); contradiction.
Qed.

Lemma main_passes (e : env) :
  build_exists e = true -> probe_passes e ->
  main e =
  (Returned tt,
   startup ++ [request; structure_ok; passed_line; Kill])%list.
Proof.
  intros Hb (body & Hp & Hr & Hs).
  rewrite (main_run e Hb), (testPromise_response e body Hp).
  now rewrite on_end_cases, Hr, Hs.
Qed.

(** X11.  The script reports success ("Runtime compatibility test
    passed") exactly when the build directory exists and the response
    ended with a body that has [id="root"] and none of the four error
    signatures.  That run is: the opening line, the spawn, the 2000 ms
    wait, the request, the two success lines and [serve.kill()], after
    which [testRuntime] returns normally. *)
Theorem success_reported_iff (e : env) :
  (printed Log "✅ Runtime compatibility test passed" (main e) <->
   build_exists e = true /\ probe_passes e) /\
  (build_exists e = true -> probe_passes e ->
   main e =
   (Returned tt,
    [ Console Log [Text "🔍 Testing runtime compatibility..."];
      Spawn "npx" ["serve"; "-s"; "build"; "-p"; "3001"];
      Sleep 2000;
      HttpGet "http://localhost:3001";
      Console Log [Text "✅ Basic HTML structure looks good"];
      Console Log [Text "✅ Runtime compatibility test passed"];
      Kill ])).
Proof.
  split; [|intros Hb Hp; now rewrite (main_passes e Hb Hp)].
  unfold printed. split.
  - intros H. destruct (build_exists e) eqn:Hb.
    + split; [reflexivity|].
      destruct (testPromise_shape e) as (t & _ & _ & _ & <-).
      now apply passed_only_if_returned.
    + rewrite (main_no_build e Hb) in H. simpl in H.
      repeat (destruct H as [H|H]; [discriminate H|]). contradiction.
  - intros [Hb Hp]. rewrite (main_passes e Hb Hp). simpl. tauto.
Qed.

(** X12.  Whenever the script issues an HTTP request, it is the request
    to [http://localhost:3001], and what precedes it is exactly the
    opening line, one [spawn] of [npx serve -s build -p 3001] and the
    2000 ms wait; after it nothing is spawned and nothing is requested
    again: the probe is never retried. *)
Theorem request_only_after_warmup
    (e : env) (t1 t2 : list event) (url : string) :
  trace (main e) = (t1 ++ HttpGet url :: t2)%list ->
  t1 = [ Console Log [Text "🔍 Testing runtime compatibility..."];
         Spawn "npx" ["serve"; "-s"; "build"; "-p"; "3001"];
         Sleep 2000 ] /\
  url = "http://localhost:3001" /\
  existsb is_spawn t2 = false /\
  existsb is_request t2 = false.
Proof.
  intros H. destruct (build_exists e) eqn:Hb.
  - destruct (main_trace_shape e Hb) as (rest & Ht & Hs & Hq).
    rewrite Ht in H.
    destruct (split_at_unique is_request startup rest t1 t2
                request (HttpGet url) eq_refl Hq eq_refl H)
      as (-> & Hu & ->).
    injection Hu as ->. repeat split; assumption.
  - exfalso. rewrite (main_no_build e Hb) in H. cbn [trace snd] in H.
    assert (Hin : In (HttpGet url) (t1 ++ HttpGet url :: t2))
      by (apply in_elt).
    rewrite <- H in Hin. simpl in Hin.
    repeat (destruct Hin as [Hin|Hin]; [discriminate Hin|]). contradiction.
Qed.

Lemma request_only_after_warmup_witness :
  startup =
  [ Console Log [Text "🔍 Testing runtime compatibility..."];
    Spawn "npx" ["serve"; "-s"; "build"; "-p"; "3001"];
    Sleep 2000 ] /\
  "http://localhost:3001" = "http://localhost:3001" /\
  existsb is_spawn (failure_lines "HTTP request timeout") = false /\
  existsb is_request (failure_lines "HTTP request timeout") = false.
Proof.
  apply (request_only_after_warmup
           (mkEnv true RequestTimeout) startup
           (failure_lines "HTTP request timeout")
           "http://localhost:3001").
  reflexivity.
Defined.

(** X13.  [serve.kill()] is executed only in the run that reports
    success, and there it is the last action, right after the "Runtime
    compatibility test passed" line: a run that reports a failure never
    reaches the [finally] block of line 94. *)
Theorem kill_only_after_success (e : env) :
  (killed (main e) = true <->
   printed Log "✅ Runtime compatibility test passed" (main e)) /\
  (killed (main e) = true ->
   exists t,
     trace (main e) =
     (t ++ [Console Log [Text "✅ Runtime compatibility test passed"];
            Kill])%list /\
     existsb is_kill t = false).
Proof.
  destruct (build_exists e) eqn:Hb.
  2:{ rewrite (main_no_build e Hb). unfold killed, printed. cbn.
      repeat split; try discriminate.
      intros H. repeat (destruct H as [H|H]; [discriminate H|]).
      contradiction. }
  assert (Hk : killed (main e) = true -> fst (testPromise e) = Returned tt)
    by apply (killed_iff_probe_passes e Hb).
  assert (Hp : fst (testPromise e) = Returned tt -> probe_passes e).
  { destruct (testPromise_shape e) as (t & _ & _ & _ & Hp). apply Hp. }
  split; [split|].
  - intros H. rewrite (main_passes e Hb (Hp (Hk H))).
    unfold printed. simpl. tauto.
  - intros H. apply (passed_only_if_returned e Hb) in H.
    rewrite (main_passes e Hb (Hp H)). reflexivity.
  - intros H. rewrite (main_passes e Hb (Hp (Hk H))).
    exists (startup ++ [request; structure_ok])%list. split; reflexivity.
Qed.

(** X14.  When the request fails or times out, the script reports "HTTP
    request failed: <message>" or "HTTP request timeout" as the reason of
    the failure, followed by the two hint lines, and exits with code 1;
    the structure check is never printed. *)
Theorem transport_failure_reported (e : env) :
  build_exists e = true ->
  (forall body, probe e <> Response body) ->
  exists reason,
    main e = (Exited 1, startup ++ [request] ++ failure_lines reason)%list /\
    (probe e = RequestTimeout /\ reason = "HTTP request timeout" \/
     exists msg, probe e = RequestError msg /\
                 reason = "HTTP request failed: " ++ msg).
Proof.
  intros Hb Hn. rewrite (main_run e Hb). unfold testPromise.
  rewrite bind_emit.
  destruct (probe e) as [body|msg|].
  - now elim (Hn body).
  - eexists. split; [reflexivity|]. right. now exists msg.
  - eexists. split; [reflexivity|]. now left.
Qed.

Lemma transport_failure_reported_witness :
  exists reason,
    main (mkEnv true (RequestError "connect ECONNREFUSED 127.0.0.1:3001"))
    = (Exited 1, startup ++ [request] ++ failure_lines reason)%list /\
    (probe (mkEnv true (RequestError "connect ECONNREFUSED 127.0.0.1:3001"))
     = RequestTimeout /\ reason = "HTTP request timeout" \/
     exists msg,
       probe (mkEnv true (RequestError "connect ECONNREFUSED 127.0.0.1:3001"))
       = RequestError msg /\
       reason = "HTTP request failed: " ++ msg).
Proof.
  apply (transport_failure_reported
           (mkEnv true (RequestError "connect ECONNREFUSED 127.0.0.1:3001"))).
  - reflexivity.
  - discriminate.
Defined.

(** X15.  Each of the four needles of lines 62-65 is an error signature:
    a body with [id="root"] that contains any one of them is rejected
    with "React runtime error detected in HTML output", and the script
    exits with code 1. *)
Theorem any_error_signature_rejected (e : env) (body sig : string) :
  build_exists e = true ->
  probe e = Response body ->
  Str.includes body root_id = true ->
  In sig error_signatures ->
  Str.includes body sig = true ->
  main e =
  (Exited 1,
   startup ++ [request; structure_ok] ++ failure_lines runtime_error)%list.
Proof.
  intros Hb Hp Hr Hin Hs.
  assert (H : has_error_signature body = true).
  { rewrite has_error_signature_existsb. apply existsb_exists.
    now exists sig. }
  rewrite (main_run e Hb), (testPromise_response e body Hp).
  now rewrite on_end_cases, Hr, H.
Qed.

Lemma any_error_signature_rejected_witness :
  exit_code
    (main (mkEnv true
             (Response ("<div id=" ++ dquote ++ "root" ++ dquote
                        ++ ">Uncaught React error #130</div>")))) = 1%Z.
Proof.
  rewrite (any_error_signature_rejected
             (mkEnv true
                (Response ("<div id=" ++ dquote ++ "root" ++ dquote
                           ++ ">Uncaught React error #130</div>")))
             ("<div id=" ++ dquote ++ "root" ++ dquote
              ++ ">Uncaught React error #130</div>")
             "React error");
    try reflexivity.
  simpl. tauto.
Defined.



End RuntimeMore.
